(** * Veil Mail SDK: typed errors, HTTP transport and the templates facade

    A shallow embedding of [errors.ts], [client.ts],
    [resources/templates.ts] and the calls of [resources/emails.ts] on
    one email and on the list of emails, of the Veil Mail Node SDK, with
    the lemmas that settle the properties stated about them.

    Conventions of the embedding.
    - A JavaScript string is a [string]: a sequence of code units, each an
      [ascii] (code units 0..255).
    - A JavaScript number is a [number]: NaN, an infinity, or a finite
      rational (every finite double is one).  [roundToDouble] is the
      rounding of an integer to the nearest double.
    - A value coming from the wire is a [value]: what [JSON.parse] can
      build, a raw text, or [undefined].  An object is a finite map from
      keys to values.
    - A call that may throw returns a [result]; what is thrown is a
      [thrown].
    - What the host provides and the SDK only calls ([Number::toString],
      [JSON.parse], [JSON.stringify], the network behind [fetch], the
      URL parser outside the inputs treated here) is a variable of the
      section.
    - Time is that of the event loop, in milliseconds since the request
      started: the timer of a request is due at its delay, the network
      settles at the time it gives. *)

From Stdlib Require Import ZArith QArith Qround String Ascii List Bool Lia.
From Stdlib Require Import DecimalString.
From stdpp Require Import base option gmap strings.
Import ListNotations.

Local Open Scope string_scope.
Local Open Scope Z_scope.

(** ** Strings *)

Definition code_unit (c : ascii) : Z := Z.of_N (N_of_ascii c).

Definition is_digit (c : ascii) : bool :=
  (48 <=? code_unit c) && (code_unit c <=? 57).

Definition digit_value (c : ascii) : Z := code_unit c - 48.

(** [s.startsWith(p)] *)
Definition startsWith (s p : string) : bool := String.prefix p s.

(** [s.includes(p)] *)
Fixpoint includes (s p : string) : bool :=
  String.prefix p s ||
  match s with
  | EmptyString => false
  | String _ rest => includes rest p
  end.

(** Truthiness of a string: every string but the empty one. *)
Definition nonempty (s : string) : bool :=
  match s with EmptyString => false | String _ _ => true end.

(** ASCII lower-casing, as used to compare header names. *)
Definition lower_char (c : ascii) : ascii :=
  if (65 <=? code_unit c) && (code_unit c <=? 90)
  then ascii_of_N (N_of_ascii c + 32) else c.

Fixpoint lower (s : string) : string :=
  match s with
  | EmptyString => EmptyString
  | String c rest => String (lower_char c) (lower rest)
  end.

Fixpoint join (sep : string) (l : list string) : string :=
  match l with
  | [] => ""
  | [x] => x
  | x :: rest => x +:+ sep +:+ join sep rest
  end.

(** [s.replace(/\/$/, '')]: one trailing slash is dropped. *)
Fixpoint strip_trailing_slash (s : string) : string :=
  match s with
  | EmptyString => EmptyString
  | String c EmptyString => if Ascii.eqb c "/" then EmptyString else s
  | String c rest => String c (strip_trailing_slash rest)
  end.

(** ** Numbers *)

Inductive number :=
| NaN
| Fin (q : Q)
| Infinity (negative : bool).

Definition Int (z : Z) : number := Fin (inject_Z z).

Definition number_truthy (n : number) : bool :=
  match n with
  | NaN => false
  | Fin q => negb (Qnum q =? 0)
  | Infinity _ => true
  end.

(** The double nearest to the integer [z] (ties to even); integers below
    2^53 in magnitude are doubles already. *)
Definition roundToDouble (z : Z) : number :=
  let a := Z.abs z in
  if a <? 2 ^ 53 then Int z
  else
    let e := Z.log2 a - 52 in
    let q := Z.shiftr a e in
    let r := a - Z.shiftl q e in
    let half := 2 ^ (e - 1) in
    let q' := if (half <? r) || ((r =? half) && Z.odd q) then q + 1 else q in
    let v := q' * 2 ^ e in
    if 2 ^ 1024 <=? v then Infinity (z <? 0) else Int (Z.sgn z * v).

(** White space skipped by [parseInt], among the code units 0..255. *)
Definition is_white_space (c : ascii) : bool :=
  let n := code_unit c in
  ((9 <=? n) && (n <=? 13)) || (n =? 32) || (n =? 160).

Fixpoint trimStart (s : string) : string :=
  match s with
  | String c rest => if is_white_space c then trimStart rest else s
  | EmptyString => EmptyString
  end.

(** The value of the longest prefix of decimal digits of [s], read after
    [acc]; [None] when the prefix is empty and nothing was read. *)
Fixpoint read_digits (s : string) (acc : option Z) : option Z :=
  match s with
  | String c rest =>
      if is_digit c
      then read_digits rest (Some (10 * default 0 acc + digit_value c))
      else acc
  | EmptyString => acc
  end.

(** [parseInt(s, 10)]: white space is skipped, a sign is read, then the
    longest row of decimal digits; the integer read is rounded to a
    double.  (For more than 20 significant digits the language lets an
    implementation round differently.) *)
Definition parseInt (s : string) : number :=
  let s1 := trimStart s in
  let '(sign, s2) :=
    match s1 with
    | String c rest =>
        if Ascii.eqb c "-" then (-1, rest)
        else if Ascii.eqb c "+" then (1, rest)
        else (1, s1)
    | EmptyString => (1, s1)
    end in
  match read_digits s2 None with
  | None => NaN
  | Some m => roundToDouble (sign * m)
  end.

Fixpoint forall_chars (ok : ascii -> bool) (s : string) : bool :=
  match s with
  | EmptyString => true
  | String c rest => ok c && forall_chars ok rest
  end.

(** What a row of decimal digits denotes: the first of [k+1] digits
    weighs 10^k. *)
Fixpoint digits_value (s : string) : Z :=
  match s with
  | EmptyString => 0
  | String c rest => digit_value c * 10 ^ Z.of_nat (String.length rest) + digits_value rest
  end.

Definition all_digits (s : string) : bool := nonempty s && forall_chars is_digit s.

(** The integer that an optionally signed decimal literal denotes;
    [None] for any other text. *)
Definition decimal_integer (s : string) : option Z :=
  match s with
  | String c rest =>
      if Ascii.eqb c "-" then (if all_digits rest then Some (- digits_value rest) else None)
      else if Ascii.eqb c "+" then (if all_digits rest then Some (digits_value rest) else None)
      else if all_digits s then Some (digits_value s) else None
  | EmptyString => None
  end.

(** Decimal digits of an integer, as an array index is written. *)
Definition decimal (z : Z) : string := NilZero.string_of_int (Z.to_int z).

(** ** Values *)

#[warnings="-register-all"]
Inductive value :=
| VUndefined
| VNull
| VBool (b : bool)
| VNum (n : number)
| VStr (s : string)
| VArr (items : list value)
| VObj (fields : gmap string value).

Definition truthy (v : value) : bool :=
  match v with
  | VUndefined | VNull => false
  | VBool b => b
  | VNum n => number_truthy n
  | VStr s => nonempty s
  | VArr _ | VObj _ => true
  end.

(** [v?.k], for a key [k] that no built-in prototype defines (all the
    keys the SDK reads: error, message, code, details, piiTypes). *)
Definition opt_get (v : value) (k : string) : value :=
  match v with
  | VObj o => default VUndefined (o !! k)
  | _ => VUndefined
  end.

(** [a ?? b] *)
Definition nullish (a b : value) : value :=
  match a with
  | VUndefined | VNull => b
  | _ => a
  end.

(** [v === 'literal'] *)
Definition is_string (v : value) (s : string) : bool :=
  match v with
  | VStr t => String.eqb t s
  | _ => false
  end.

(** A parameter with a default value: the default replaces [undefined]
    only. *)
Definition default_arg (v d : value) : value :=
  match v with
  | VUndefined => d
  | _ => v
  end.

(** The own enumerable properties of a value, as a rest pattern or a
    spread collects them; [None] for [undefined] and [null]. *)
Definition own_properties (v : value) : option (gmap string value) :=
  match v with
  | VUndefined | VNull => None
  | VBool _ | VNum _ => Some ∅
  | VStr s =>
      Some (list_to_map
              (imap (fun i c => (decimal (Z.of_nat i), VStr (String c EmptyString)))
                    (list_ascii_of_string s)))
  | VArr items =>
      Some (list_to_map (imap (fun i x => (decimal (Z.of_nat i), x)) items))
  | VObj fields => Some fields
  end.

(** ** Headers and responses *)

Definition Headers := list (string * string).

(** [headers.get(name)]: names compare without case, the values of one
    name are joined with a comma and a space. *)
Definition Headers_get (h : Headers) (name : string) : option string :=
  match List.filter (fun nv => String.eqb (lower (fst nv)) (lower name)) h with
  | [] => None
  | found => Some (join ", " (List.map snd found))
  end.

Module Response.
Record t := mk {
  status : Z;
  statusText : string;
  headers : Headers;
  (** the body as [text()] gives it *)
  text : string
}.

(** [response.ok] *)
Definition ok (r : t) : bool := (200 <=? status r) && (status r <=? 299).
End Response.

(** ** Errors *)

Module VeilMailError.
Record t := mk {
  name : string;
  message : string;
  code : value;
  status : option Z;
  details : value;
  (** present on a [PiiDetectedError] only *)
  piiTypes : option value;
  (** [None] is [undefined] *)
  retryAfter : option number
}.

Definition with_name (n : string) (e : t) : t :=
  mk n (message e) (code e) (status e) (details e) (piiTypes e) (retryAfter e).
End VeilMailError.

(** What a [throw] carries: an SDK error, another [Error] instance
    (a [TypeError], a [SyntaxError], a [DOMException]) or any value. *)
Inductive thrown :=
| ThrownSDK (e : VeilMailError.t)
| ThrownError (name message : string)
| ThrownValue (v : value).

Inductive result (A : Type) :=
| Ok (a : A)
| Throw (t : thrown).
Arguments Ok {A} a.
Arguments Throw {A} t.

Definition bind {A B} (r : result A) (k : A -> result B) : result B :=
  match r with
  | Ok a => k a
  | Throw t => Throw t
  end.

Notation "'let*' x ':=' r 'in' k" := (bind r (fun x => k))
  (at level 10, x name, r at level 100, k at level 200).

(** ** URLs *)

Module URL.
Record t := mk {
  (** scheme, credentials, host and port, as serialised *)
  site : string;
  pathname : string;
  query : option string;
  (** the list behind [url.searchParams] *)
  searchParams : list (string * string);
  fragment : option string
}.
End URL.

Fixpoint split_at (stop : ascii -> bool) (s : string) : string * string :=
  match s with
  | EmptyString => (EmptyString, EmptyString)
  | String c rest =>
      if stop c then (EmptyString, s)
      else let '(a, b) := split_at stop rest in (String c a, b)
  end.

Fixpoint split_on (sep : ascii) (s : string) : list string :=
  match s with
  | EmptyString => [EmptyString]
  | String c rest =>
      if Ascii.eqb c sep then EmptyString :: split_on sep rest
      else match split_on sep rest with
           | [] => [String c EmptyString]
           | seg :: segs => String c seg :: segs
           end
  end.

Fixpoint strip_prefix (p s : string) : option string :=
  match p, s with
  | EmptyString, _ => Some s
  | String a p', String b s' => if Ascii.eqb a b then strip_prefix p' s' else None
  | String _ _, EmptyString => None
  end.

Definition is_lower_alpha (c : ascii) : bool :=
  (97 <=? code_unit c) && (code_unit c <=? 122).

Definition is_alnum (c : ascii) : bool :=
  is_digit c || is_lower_alpha c || ((65 <=? code_unit c) && (code_unit c <=? 90)).

Definition char_in (set : string) (c : ascii) : bool :=
  existsb (Ascii.eqb c) (list_ascii_of_string set).

(** A host the URL parser keeps as written: lower-case labels of letters,
    digits and hyphens, none of them punycode, the last one alphabetic
    (so the host is not read as an IPv4 address). *)
Definition plain_host (h : string) : bool :=
  let labels := split_on "." h in
  forallb (fun l => nonempty l
                    && forall_chars (fun c => is_digit c || is_lower_alpha c
                                              || Ascii.eqb c "-") l
                    && negb (String.prefix "xn--" l)) labels
  && forall_chars is_lower_alpha (List.last labels "").

(** A port the URL parser keeps as written: no leading zero, at most
    65535, not the default of the scheme. *)
Definition plain_port (default_port : Z) (p : string) : bool :=
  match read_digits p None with
  | Some n => forall_chars is_digit p && negb (String.prefix "0" p)
              && (n <=? 65535) && negb (n =? default_port)
  | None => false
  end.

(** The site of a plain absolute http(s) URL: the text before its path.
    [None] when the text is not of that plain form. *)
Definition plain_site (base : string) : option string :=
  let scheme :=
    match strip_prefix "https://" base, strip_prefix "http://" base with
    | Some rest, _ => Some ("https://", 443, rest)
    | None, Some rest => Some ("http://", 80, rest)
    | None, None => None
    end in
  match scheme with
  | None => None
  | Some (prefix, default_port, rest) =>
      let '(authority, _) := split_at (char_in "/?#\") rest in
      let '(host, port) := split_at (Ascii.eqb ":") authority in
      if plain_host host
         && match port with
            | EmptyString => true
            | String _ digits => plain_port default_port digits
            end
      then Some (prefix +:+ authority)
      else None
  end.

(** A path the URL parser keeps as written: it starts with one slash, has
    no dot segment, and all its characters are plain path characters. *)
Definition plain_path (p : string) : bool :=
  String.prefix "/" p
  && negb (String.prefix "//" p)
  && forall_chars (fun c => is_alnum c || char_in "-._~!$&'()*+,;=:@/" c) p
  && forallb (fun seg => negb (String.eqb seg ".") && negb (String.eqb seg ".."))
       (split_on "/" p).

(** A path of plain characters that starts with one slash; it may have
    dot segments. *)
Definition dotted_path (p : string) : bool :=
  String.prefix "/" p
  && negb (String.prefix "//" p)
  && forall_chars (fun c => is_alnum c || char_in "-._~!$&'()*+,;=:@/" c) p.

(** The segments the URL parser keeps, in reverse, read after [kept]: a
    segment of two dots removes the segment before it, a segment of one
    dot is dropped, and when the last segment is one of those an empty
    segment takes its place. *)
Fixpoint resolve_segments (segments kept : list string) : list string :=
  match segments with
  | [] => kept
  | [seg] =>
      if String.eqb seg ".." then EmptyString :: List.tl kept
      else if String.eqb seg "." then EmptyString :: kept
      else seg :: kept
  | seg :: rest =>
      if String.eqb seg ".." then resolve_segments rest (List.tl kept)
      else if String.eqb seg "." then resolve_segments rest kept
      else resolve_segments rest (seg :: kept)
  end.

(** The path the URL parser makes of a path with dot segments. *)
Definition remove_dot_segments (p : string) : string :=
  match p with
  | String _ rest =>
      "/" +:+ join "/" (List.rev (resolve_segments (split_on "/" rest) []))
  | EmptyString => "/"
  end.

Definition hex_digit (n : Z) : ascii :=
  if n <? 10 then ascii_of_N (Z.to_N (48 + n)) else ascii_of_N (Z.to_N (55 + n)).

Definition percent_byte (b : Z) : string :=
  String "%" (String (hex_digit (b / 16)) (String (hex_digit (b mod 16)) EmptyString)).

(** UTF-8 bytes of one code unit below 256. *)
Definition utf8_bytes (c : ascii) : list Z :=
  let n := code_unit c in
  if n <? 128 then [n] else [192 + n / 64; 128 + n mod 64].

(** The application/x-www-form-urlencoded serialisation of a string. *)
Fixpoint urlencode (s : string) : string :=
  match s with
  | EmptyString => EmptyString
  | String c rest =>
      (if is_alnum c || char_in "*-._" c then String c EmptyString
       else if Ascii.eqb c " " then "+"
       else String.concat "" (List.map percent_byte (utf8_bytes c)))
      +:+ urlencode rest
  end.

Definition urlencoded_serialize (l : list (string * string)) : string :=
  join "&" (List.map (fun kv => urlencode (fst kv) +:+ "=" +:+ urlencode (snd kv)) l).






(** The list of [searchParams.set(k, v)]: the first pair named [k] takes
    the value and the others are removed; a new pair is appended when
    there is none. *)
Fixpoint set_param (l : list (string * string)) (k v : string)
    : list (string * string) :=
  match l with
  | [] => [(k, v)]
  | (k', v') :: rest =>
      if String.eqb k' k
      then (k, v) :: List.filter (fun kv => negb (String.eqb (fst kv) k)) rest
      else (k', v') :: set_param rest k v
  end.

(** [url.searchParams.set(k, v)] *)
Definition URL_searchParams_set (u : URL.t) (k v : string) : URL.t :=
  let l := set_param (URL.searchParams u) k v in
  let q := urlencoded_serialize l in
  URL.mk (URL.site u) (URL.pathname u) (if nonempty q then Some q else None) l
         (URL.fragment u).

(** [url.toString()] *)
Definition URL_toString (u : URL.t) : string :=
  URL.site u +:+ URL.pathname u
  +:+ match URL.query u with Some q => "?" +:+ q | None => "" end
  +:+ match URL.fragment u with Some f => "#" +:+ f | None => "" end.

(** ** Data of client.ts *)

Module VeilMailConfig.
Record t := mk {
  (** [None] is a missing key *)
  apiKey : option string;
  baseUrl : option string;
  timeout : option number
}.
End VeilMailConfig.

Definition DEFAULT_BASE_URL : string := "https://api.veilmail.xyz".
Definition DEFAULT_TIMEOUT : number := Int 30000.

Module HttpClient.
Record t := mk {
  apiKey : string;
  baseUrl : string;
  timeout : number
}.
End HttpClient.

(** A query value: [string | number | boolean | undefined]. *)
Inductive query_value :=
| QUndefined
| QString (s : string)
| QNumber (n : number)
| QBoolean (b : bool).

Definition is_defined (v : query_value) : bool :=
  match v with QUndefined => false | _ => true end.

Module RequestOptions.
Record t := mk {
  (** [VUndefined] when absent *)
  body : value;
  (** the entries of the query object, in the order of [Object.entries] *)
  query : option (list (string * query_value));
  headers : gmap string string
}.
Definition empty : t := mk VUndefined None ∅.
End RequestOptions.

(** The signal of an [AbortController] that a timer aborts: the
    controller aborts [aborts_after] milliseconds after the request
    started, unless the timer is cleared before. *)
Module AbortSignal.
Record t := mk {
  aborts_after : Z
}.
End AbortSignal.

Module RequestInit.
Record t := mk {
  method : string;
  headers : gmap string string;
  body : option string;
  signal : AbortSignal.t
}.
End RequestInit.

(** The largest delay of a timer of Node. *)
Definition TIMEOUT_MAX : Z := 2 ^ 31 - 1.

(** The delay, in milliseconds, after which [setTimeout(callback, after)]
    of Node runs the callback: [after] truncated to an integer, and 1 when
    [after] is below 1, above [TIMEOUT_MAX] or not a number. *)
Definition setTimeout_delay (after : number) : Z :=
  match after with
  | Fin q =>
      if Qle_bool 1 q && Qle_bool q (inject_Z TIMEOUT_MAX) then Qfloor q else 1
  | NaN | Infinity _ => 1
  end.

(** [const controller = new AbortController()] and
    [setTimeout(() => controller.abort(), this.timeout)]: the signal of
    the controller. *)
Definition timer_signal (client : HttpClient.t) : AbortSignal.t :=
  AbortSignal.mk (setTimeout_delay (HttpClient.timeout client)).

(** What the network does with a request that nobody aborts.  Times are
    those of the event loop, in milliseconds since [request] armed its
    timer and called [fetch]. *)
Inductive settlement :=
(** the head of a response (status and headers) is delivered at [after];
    its body is complete [body_after] milliseconds later *)
| Answers (after : Z) (response : Response.t) (body_after : Z)
(** the request fails at [after] *)
| Rejects (after : Z) (error : thrown)
(** nothing ever comes back *)
| Pending.

(** How a [fetch] bound to the abort signal of the request settles. *)
Inductive fetch_outcome :=
| Responded (r : Response.t)
(** the timer fired first and aborted the request *)
| Aborted
| Failed (t : thrown).

Module VeilMail.
Record t := mk {
  http : HttpClient.t
}.
End VeilMail.

(** ** Data of the resources *)

Module ListEmailsParams.
Record t := mk {
  limit : option number;
  cursor : option string;
  status : option string;
  tag : option string;
  after : option string;
  before : option string
}.
End ListEmailsParams.

(** An optional member of a parameter object, as a query value. *)
Definition number_or_undefined (o : option number) : query_value :=
  match o with Some n => QNumber n | None => QUndefined end.

Definition string_or_undefined (o : option string) : query_value :=
  match o with Some s => QString s | None => QUndefined end.

(** An identifier made of letters, digits, underscores and hyphens. *)
Definition safe_id (id : string) : bool :=
  forall_chars (fun c => is_alnum c || char_in "_-" c) id.

Section SDK.

Set Default Proof Using "Type".

(** [Number::toString] of the host. *)
Variable Number_toString : number -> string.

(** ** Conversion to a string *)

(** [ToString(v)], as the [Error] constructor applies it to its message;
    [None] is the [TypeError] of a value that has no primitive form.  An
    object built by [JSON.parse] prints through [Object.prototype.toString]
    unless it has a member of its own named toString: such a member is
    never callable, and valueOf (its own or the inherited one) yields no
    primitive either.  An array prints its items separated by commas,
    [null] and [undefined] items as nothing. *)
Fixpoint ToString (v : value) : option string :=
  match v with
  | VUndefined => Some "undefined"
  | VNull => Some "null"
  | VBool true => Some "true"
  | VBool false => Some "false"
  | VNum n => Some (Number_toString n)
  | VStr s => Some s
  | VArr items =>
      (fix items_to_string (l : list value) : option string :=
         match l with
         | [] => Some ""
         | x :: rest =>
             let first :=
               match x with
               | VUndefined | VNull => Some ""
               | _ => ToString x
               end in
             match first, rest with
             | None, _ => None
             | Some a, [] => Some a
             | Some a, _ :: _ =>
                 match items_to_string rest with
                 | Some b => Some (a +:+ "," +:+ b)
                 | None => None
                 end
             end
         end) items
  | VObj o =>
      match o !! "toString" with
      | Some _ => None
      | None => Some "[object Object]"
      end
  end.

(** ** errors.ts *)

(** [new Error(message)]: the message is converted unless [undefined]. *)
Definition Error_message (message : value) : result string :=
  match message with
  | VUndefined => Ok ""
  | _ =>
      match ToString message with
      | Some s => Ok s
      | None => Throw (ThrownError "TypeError" "Cannot convert object to primitive value")
      end
  end.

Definition VeilMailError_new (message code : value) (status : option Z)
    (details : value) : result VeilMailError.t :=
  let* msg := Error_message message in
  Ok (VeilMailError.mk "VeilMailError" msg code status details None None).

Definition AuthenticationError_new (message : value) : result VeilMailError.t :=
  let* e := VeilMailError_new (default_arg message (VStr "Invalid API key"))
              (VStr "authentication_error") (Some 401) VUndefined in
  Ok (VeilMailError.with_name "AuthenticationError" e).

Definition ForbiddenError_new (message : value) : result VeilMailError.t :=
  let* e := VeilMailError_new (default_arg message (VStr "Access denied"))
              (VStr "forbidden") (Some 403) VUndefined in
  Ok (VeilMailError.with_name "ForbiddenError" e).

Definition NotFoundError_new (resource : string) (id : option string)
    : result VeilMailError.t :=
  let message :=
    match id with
    | Some i => if nonempty i
                then resource +:+ " with ID '" +:+ i +:+ "' not found"
                else resource +:+ " not found"
    | None => resource +:+ " not found"
    end in
  let* e := VeilMailError_new (VStr message) (VStr "not_found") (Some 404) VUndefined in
  Ok (VeilMailError.with_name "NotFoundError" e).

Definition ValidationError_new (message details : value) : result VeilMailError.t :=
  let* e := VeilMailError_new message (VStr "validation_error") (Some 400) details in
  Ok (VeilMailError.with_name "ValidationError" e).

Definition PiiDetectedError_new (message piiTypes : value) : result VeilMailError.t :=
  let* e := VeilMailError_new message (VStr "pii_detected") (Some 422)
              (VObj {[ "piiTypes" := piiTypes ]}) in
  Ok (VeilMailError.mk "PiiDetectedError" (VeilMailError.message e)
        (VeilMailError.code e) (VeilMailError.status e) (VeilMailError.details e)
        (Some piiTypes) None).

Definition RateLimitError_new (message : value) (retryAfter : option number)
    : result VeilMailError.t :=
  let details :=
    match retryAfter with
    | Some n => if number_truthy n then VObj {[ "retryAfter" := VNum n ]} else VUndefined
    | None => VUndefined
    end in
  let* e := VeilMailError_new (default_arg message (VStr "Rate limit exceeded"))
              (VStr "rate_limit") (Some 429) details in
  Ok (VeilMailError.mk "RateLimitError" (VeilMailError.message e)
        (VeilMailError.code e) (VeilMailError.status e) (VeilMailError.details e)
        None retryAfter).

Definition ServerError_new (message : value) (status : option Z)
    : result VeilMailError.t :=
  let* e := VeilMailError_new (default_arg message (VStr "Internal server error"))
              (VStr "server_error") (Some (default 500 status)) VUndefined in
  Ok (VeilMailError.with_name "ServerError" e).

Definition TimeoutError_new (timeout : number) : result VeilMailError.t :=
  let* e := VeilMailError_new
              (VStr ("Request timed out after " +:+ Number_toString timeout +:+ "ms"))
              (VStr "timeout") None VUndefined in
  Ok (VeilMailError.with_name "TimeoutError" e).

Definition NetworkError_new (message : string) : result VeilMailError.t :=
  let* e := VeilMailError_new (VStr message) (VStr "network_error") None VUndefined in
  Ok (VeilMailError.with_name "NetworkError" e).

(** [body?.error?.message ?? response.statusText] *)
Definition api_message (response : Response.t) (body : value) : value :=
  nullish (opt_get (opt_get body "error") "message")
          (VStr (Response.statusText response)).

(** [body?.error?.code ?? 'unknown_error'] *)
Definition api_code (body : value) : value :=
  nullish (opt_get (opt_get body "error") "code") (VStr "unknown_error").

(** [body?.error?.details] *)
Definition api_details (body : value) : value :=
  opt_get (opt_get body "error") "details".

(** Parse an API error response and return the appropriate error. *)
Definition parseApiError (response : Response.t) (body : value)
    : result VeilMailError.t :=
  let status := Response.status response in
  let message := api_message response body in
  let code := api_code body in
  let details := api_details body in
  if status =? 401 then AuthenticationError_new message
  else if status =? 403 then ForbiddenError_new message
  else if status =? 404 then NotFoundError_new "Resource" None
  else if status =? 422 then
    if is_string code "pii_detected" && truthy (opt_get details "piiTypes")
    then PiiDetectedError_new message (opt_get details "piiTypes")
    else ValidationError_new message details
  else if status =? 429 then
    let retryAfter := Headers_get (Response.headers response) "Retry-After" in
    RateLimitError_new message
      (match retryAfter with
       | Some v => if nonempty v then Some (parseInt v) else None
       | None => None
       end)
  else if 500 <=? status then ServerError_new message (Some status)
  else VeilMailError_new message code (Some status) details.

(** ** URLs: the constructor *)

(** The URL constructor on the inputs that are not treated below. *)
Variable URL_other : string -> string -> option URL.t.

(** The site of a base URL: what the serialisation of the parsed base
    has before its path.  For a plain base that is the text of the base
    up to its path; for another http(s) base it is the site of the URL
    the parser makes of a single slash against it. *)
Definition base_site (base : string) : option string :=
  match plain_site base with
  | Some site => Some site
  | None =>
      if String.prefix "http:" (lower base) || String.prefix "https:" (lower base)
      then URL.site <$> URL_other "/" base
      else None
  end.

(** [new URL(input, base)]; [None] is the [TypeError] of an invalid URL.
    A path of plain characters resolved against an http(s) base keeps
    the site of the base and nothing else of it; the path is kept as
    written unless it has dot segments, which are resolved. *)
Definition URL_new (input base : string) : option URL.t :=
  match base_site base with
  | Some site =>
      if plain_path input
      then Some (URL.mk site input None [] None)
      else if dotted_path input
      then Some (URL.mk site (remove_dot_segments input) None [] None)
      else URL_other input base
  | None => URL_other input base
  end.

(** ** client.ts *)

Definition HttpClient_new (config : VeilMailConfig.t) : result HttpClient.t :=
  match VeilMailConfig.apiKey config with
  | None => Throw (ThrownError "Error" "API key is required")
  | Some key =>
      if negb (nonempty key)
      then Throw (ThrownError "Error" "API key is required")
      else if negb (startsWith key "veil_live_") && negb (startsWith key "veil_test_")
      then Throw (ThrownError "Error"
             "Invalid API key format. API keys should start with veil_live_ or veil_test_")
      else Ok (HttpClient.mk key
                 (match VeilMailConfig.baseUrl config with
                  | Some b => strip_trailing_slash b
                  | None => DEFAULT_BASE_URL
                  end)
                 (default DEFAULT_TIMEOUT (VeilMailConfig.timeout config)))
  end.

(** [String(value)] of a defined query value. *)
Definition String_of (v : query_value) : string :=
  match v with
  | QUndefined => "undefined"
  | QString s => s
  | QNumber n => Number_toString n
  | QBoolean true => "true"
  | QBoolean false => "false"
  end.

(** The network behind [fetch]. *)
Variable network : string -> RequestInit.t -> settlement.

(** [fetch(url, init)]: the promise settles as the network does when that
    happens before the signal of [init] aborts, and rejects with an
    [AbortError] when the signal aborts first.  In a turn of the event
    loop the timers that are due run before the network is polled, so a
    settlement due at the very time of the abort comes too late. *)
Definition fetch (url : string) (init : RequestInit.t) : fetch_outcome :=
  let deadline := AbortSignal.aborts_after (RequestInit.signal init) in
  match network url init with
  | Answers after response _ => if after <? deadline then Responded response else Aborted
  | Rejects after error => if after <? deadline then Failed error else Aborted
  | Pending => Aborted
  end.

(** [JSON.parse]; the right side is the message of the [SyntaxError]. *)
Variable JSON_parse : string -> value + string.

(** [JSON.stringify] of a truthy value. *)
Variable JSON_stringify : value -> string.

(** One turn of the query loop of [request]. *)
Definition add_query_step (url : URL.t) (kv : string * query_value) : URL.t :=
  match snd kv with
  | QUndefined => url
  | v => URL_searchParams_set url (fst kv) (String_of v)
  end.

(** The query loop of [request]. *)
Definition add_query (url : URL.t) (query : option (list (string * query_value)))
    : URL.t :=
  match query with
  | None => url
  | Some entries => fold_left add_query_step entries url
  end.

(** The pairs a query object contributes: its defined entries, each
    value as a string. *)
Definition defined_params (entries : list (string * query_value))
    : list (string * string) :=
  List.map (fun kv => (fst kv, String_of (snd kv)))
           (List.filter (fun kv => is_defined (snd kv)) entries).

(** The URL that [request] hands to [fetch]. *)
Definition request_url (client : HttpClient.t) (path : string)
    (query : option (list (string * query_value))) : option string :=
  match URL_new path (HttpClient.baseUrl client) with
  | Some url => Some (URL_toString (add_query url query))
  | None => None
  end.

Definition request_headers (client : HttpClient.t) (extra : gmap string string)
    : gmap string string :=
  extra ∪ {[ "Authorization" := "Bearer " +:+ HttpClient.apiKey client;
             "Content-Type" := "application/json";
             "User-Agent" := "@resonia/veilmail-sdk/0.2.0" ]}.

Definition request_init (client : HttpClient.t) (method : string)
    (options : RequestOptions.t) : RequestInit.t :=
  RequestInit.mk method
    (request_headers client (RequestOptions.headers options))
    (if truthy (RequestOptions.body options)
     then Some (JSON_stringify (RequestOptions.body options))
     else None)
    (timer_signal client).

(** [contentType?.includes('application/json')] *)
Definition indicates_json (contentType : option string) : bool :=
  match contentType with
  | Some ct => includes ct "application/json"
  | None => false
  end.

(** The body of a response: parsed when the content type says JSON, the
    raw text otherwise. *)
Definition read_body (response : Response.t) : result value :=
  let contentType := Headers_get (Response.headers response) "content-type" in
  if indicates_json contentType
  then match JSON_parse (Response.text response) with
       | inl v => Ok v
       | inr m => Throw (ThrownError "SyntaxError" m)
       end
  else Ok (VStr (Response.text response)).

(** The [try] block of [request], from the settled [fetch] on.  The
    timer is cleared as soon as [fetch] has settled with a response, so
    nothing aborts the reading of the body, however long it takes. *)
Definition handle_response (outcome : fetch_outcome) : result value :=
  match outcome with
  | Aborted => Throw (ThrownError "AbortError" "This operation was aborted")
  | Failed t => Throw t
  | Responded response =>
      if Response.status response =? 204 then Ok VUndefined
      else
        let* body := read_body response in
        if negb (Response.ok response)
        then let* e := parseApiError response body in Throw (ThrownSDK e)
        else Ok body
  end.

(** [error instanceof Error], with the name and message of the error. *)
Definition as_Error (t : thrown) : option (string * string) :=
  match t with
  | ThrownSDK e => Some (VeilMailError.name e, VeilMailError.message e)
  | ThrownError n m => Some (n, m)
  | ThrownValue _ => None
  end.

(** The [catch] block of [request]. *)
Definition handle_error {A} (client : HttpClient.t) (error : thrown) : result A :=
  match as_Error error with
  | Some (name, message) =>
      if String.eqb name "AbortError"
      then let* e := TimeoutError_new (HttpClient.timeout client) in Throw (ThrownSDK e)
      else if String.eqb name "TypeError" && includes message "fetch"
      then let* e := NetworkError_new ("Network error: " +:+ message) in
           Throw (ThrownSDK e)
      else Throw error
  | None => Throw error
  end.

(** Make an HTTP request to the API. *)
Definition request (client : HttpClient.t) (method path : string)
    (options : RequestOptions.t) : result value :=
  match request_url client path (RequestOptions.query options) with
  | None => Throw (ThrownError "TypeError" "Invalid URL")
  | Some url =>
      match handle_response (fetch url (request_init client method options)) with
      | Ok v => Ok v
      | Throw error => handle_error client error
      end
  end.

Definition HttpClient_get (client : HttpClient.t) (path : string)
    (query : option (list (string * query_value))) : result value :=
  request client "GET" path (RequestOptions.mk VUndefined query ∅).

Definition HttpClient_post (client : HttpClient.t) (path : string) (body : value)
    : result value :=
  request client "POST" path (RequestOptions.mk body None ∅).

Definition HttpClient_patch (client : HttpClient.t) (path : string) (body : value)
    : result value :=
  request client "PATCH" path (RequestOptions.mk body None ∅).

Definition HttpClient_put (client : HttpClient.t) (path : string) (body : value)
    : result value :=
  request client "PUT" path (RequestOptions.mk body None ∅).

Definition HttpClient_delete (client : HttpClient.t) (path : string) : result value :=
  request client "DELETE" path RequestOptions.empty.

(** A successful response that [request] reads as the JSON value [v]. *)
Definition answers_json (response : Response.t) (v : value) : Prop :=
  Response.status response <> 204
  /\ Response.ok response = true
  /\ indicates_json (Headers_get (Response.headers response) "content-type") = true
  /\ JSON_parse (Response.text response) = inl v.

(** [new VeilMail(apiKeyOrConfig)]: every facade is built around the one
    transport, and no facade constructor can fail. *)
Definition VeilMail_new (apiKeyOrConfig : string + VeilMailConfig.t)
    : result VeilMail.t :=
  let config :=
    match apiKeyOrConfig with
    | inl key => VeilMailConfig.mk (Some key) None None
    | inr c => c
    end in
  let* http := HttpClient_new config in
  Ok (VeilMail.mk http).

(** ** resources/templates.ts *)

(** [v.k]: reading a member of [undefined] or [null] throws. *)
Definition member (v : value) (k : string) : result value :=
  match v with
  | VUndefined =>
      Throw (ThrownError "TypeError"
               ("Cannot read properties of undefined (reading '" +:+ k +:+ "')"))
  | VNull =>
      Throw (ThrownError "TypeError"
               ("Cannot read properties of null (reading '" +:+ k +:+ "')"))
  | _ => Ok (opt_get v k)
  end.

(** The mapping of [Templates.mapTemplate]: the wire field variablesSchema
    becomes the public field variables. *)
Definition mapTemplate (data : value) : result value :=
  match own_properties data with
  | None =>
      Throw (ThrownError "TypeError"
               ("Cannot destructure property 'variablesSchema' of 'data' as it is "
                +:+ (match data with VNull => "null" | _ => "undefined" end) +:+ "."))
  | Some fields =>
      let variablesSchema := default VUndefined (fields !! "variablesSchema") in
      let rest := delete "variablesSchema" fields in
      Ok (VObj (<[ "variables" :=
                    if truthy variablesSchema then variablesSchema else VArr [] ]> rest))
  end.

(** The body that [Templates.create] posts. *)
Definition create_body (params : gmap string value) : gmap string value :=
  let variables := default VUndefined (params !! "variables") in
  let rest := delete "variables" params in
  if truthy variables then <[ "variablesSchema" := variables ]> rest else rest.

Definition Templates_create (http : HttpClient.t) (params : gmap string value)
    : result value :=
  let* response := HttpClient_post http "/v1/templates" (VObj (create_body params)) in
  let* data := member response "data" in
  mapTemplate data.

Definition Templates_get (http : HttpClient.t) (id : string) : result value :=
  let* response := HttpClient_get http ("/v1/templates/" +:+ id) None in
  let* data := member response "data" in
  mapTemplate data.

(** The body that [Templates.update] patches. *)
Definition update_body (params : gmap string value) : gmap string value :=
  let variables := default VUndefined (params !! "variables") in
  let rest := delete "variables" params in
  match variables with
  | VUndefined => rest
  | _ => <[ "variablesSchema" := variables ]> rest
  end.

Definition Templates_update (http : HttpClient.t) (id : string)
    (params : gmap string value) : result value :=
  let* response := HttpClient_patch http ("/v1/templates/" +:+ id)
                     (VObj (update_body params)) in
  let* data := member response "data" in
  mapTemplate data.

Definition Templates_delete (http : HttpClient.t) (id : string) : result value :=
  let* _ := HttpClient_delete http ("/v1/templates/" +:+ id) in
  Ok VUndefined.

(** ** resources/emails.ts *)

(** The query object of [Emails.list], as [Object.entries] lists it. *)
Definition Emails_list_query (params : option ListEmailsParams.t)
    : list (string * query_value) :=
  [("limit", number_or_undefined (params ≫= ListEmailsParams.limit));
   ("cursor", string_or_undefined (params ≫= ListEmailsParams.cursor));
   ("status", string_or_undefined (params ≫= ListEmailsParams.status));
   ("tag", string_or_undefined (params ≫= ListEmailsParams.tag));
   ("after", string_or_undefined (params ≫= ListEmailsParams.after));
   ("before", string_or_undefined (params ≫= ListEmailsParams.before))].

Definition Emails_list (http : HttpClient.t) (params : option ListEmailsParams.t)
    : result value :=
  HttpClient_get http "/v1/emails" (Some (Emails_list_query params)).

Definition Emails_get (http : HttpClient.t) (id : string) : result value :=
  HttpClient_get http ("/v1/emails/" +:+ id) None.

Definition Emails_cancel (http : HttpClient.t) (id : string) : result value :=
  HttpClient_post http ("/v1/emails/" +:+ id +:+ "/cancel") VUndefined.

(** A member of a parameter object that is present, as a query pair. *)
Definition present (k : string) (v : option string) : list (string * string) :=
  match v with Some s => [(k, s)] | None => [] end.

(** ** Sample hosts and inputs *)

(** How the host prints the integers below 2^53 in magnitude, and the
    values that are not finite. *)
Definition sample_Number_toString (n : number) : string :=
  match n with
  | NaN => "NaN"
  | Infinity false => "Infinity"
  | Infinity true => "-Infinity"
  | Fin q => decimal (Qnum q / Zpos (Qden q))
  end.

(** A host whose URL parser rejects every input left to it. *)
Definition sample_URL_other (input base : string) : option URL.t := None.

(** A network that settles every request the same way. *)
Definition sample_network (outcome : settlement) (url : string)
    (init : RequestInit.t) : settlement := outcome.


(** A parser that reads every text as the given value. *)
Definition sample_JSON_parse (v : value) (text : string) : value + string := inl v.

(** A parser that rejects every text. *)
Definition failing_JSON_parse (text : string) : value + string :=
  inr "Unexpected end of JSON input".

Definition sample_JSON_stringify (v : value) : string := "{}".

Definition sample_client : HttpClient.t :=
  HttpClient.mk "veil_test_key" "https://proxy.example.com/api" (Int 50).

Definition sample_params : gmap string value :=
  {[ "name" := VStr "Welcome Email";
     "subject" := VStr "Welcome!";
     "html" := VStr "<h1>Hello</h1>";
     "variables" := VArr [VObj {[ "name" := VStr "firstName" ]}] ]}.

Definition json_response (status : Z) : Response.t :=
  Response.mk status "" [("content-type", "application/json")] "stored".

(** A body in the error envelope of the API, with a PII code. *)
Definition pii_body (piiTypes : value) : value :=
  VObj {[ "error" :=
            VObj {[ "code" := VStr "pii_detected";
                    "message" := VStr "PII detected";
                    "details" := VObj {[ "piiTypes" := piiTypes ]} ]} ]}.

(** A body whose message is an object with members named toString and
    valueOf, both null. *)
Definition unprintable_body : value :=
  VObj {[ "error" :=
            VObj {[ "message" :=
                      VObj {[ "toString" := VNull; "valueOf" := VNull ]} ]} ]}.


(** A 401 whose body has a code and details of its own. *)
Definition revoked_body : value :=
  VObj {[ "error" :=
            VObj {[ "code" := VStr "key_revoked";
                    "message" := VStr "Key revoked";
                    "details" := VObj {[ "keyId" := VStr "key_1" ]} ]} ]}.

Definition sample_filters : ListEmailsParams.t :=
  ListEmailsParams.mk (Some (Int 20)) None (Some "delivered") None None None.

Definition sample_update : gmap string value :=
  {[ "subject" := VStr "Hello again"; "variables" := VArr [] ]}.

Definition stored_template : gmap string value :=
  {[ "id" := VStr "template_1"; "subject" := VStr "Hello again";
     "variablesSchema" := VArr [] ]}.

(** * Properties *)

(** Forget the host functions the goal does not mention. *)
Ltac drop_host :=
  repeat match goal with
         | f : number -> string |- _ => clear f
         | f : string -> string -> option URL.t |- _ => clear f
         | f : string -> RequestInit.t -> settlement |- _ => clear f
         | f : string -> value + string |- _ => clear f
         | f : value -> string |- _ => clear f
         end.

Ltac host_tauto := drop_host; tauto.

(** ** The error taxonomy *)

Lemma api_message_defined response body :
  api_message response body <> VUndefined /\ api_message response body <> VNull.
Proof.
  unfold api_message, nullish.
  destruct (opt_get (opt_get body "error") "message"); split; congruence.
Qed.

Lemma default_arg_defined v d : v <> VUndefined -> default_arg v d = v.
Proof. destruct v; simpl; congruence. Qed.

Lemma Error_message_converts v s :
  v <> VUndefined -> ToString v = Some s -> Error_message v = Ok s.
Proof.
  intros Hv Hs. unfold Error_message. rewrite Hs.
  destruct v; congruence.
Qed.

Lemma Error_message_fails v :
  ToString v = None ->
  Error_message v = Throw (ThrownError "TypeError" "Cannot convert object to primitive value").
Proof.
  intros Hs. unfold Error_message. rewrite Hs.
  destruct v; simpl in Hs; congruence.
Qed.

Lemma VeilMailError_new_converts response body s code status details :
  ToString (api_message response body) = Some s ->
  VeilMailError_new (api_message response body) code status details
  = Ok (VeilMailError.mk "VeilMailError" s code status details None None).
Proof.
  intros Hs. unfold VeilMailError_new.
  rewrite (Error_message_converts _ s); [reflexivity | | exact Hs].
  apply api_message_defined.
Qed.

Lemma VeilMailError_new_fails response body code status details :
  ToString (api_message response body) = None ->
  VeilMailError_new (api_message response body) code status details
  = Throw (ThrownError "TypeError" "Cannot convert object to primitive value").
Proof.
  intros Hs. unfold VeilMailError_new.
  rewrite Error_message_fails; [reflexivity | exact Hs].
Qed.

(** The branches of [parseApiError], one equation per status. *)
Lemma parseApiError_401 response body :
  Response.status response = 401 ->
  parseApiError response body = AuthenticationError_new (api_message response body).
Proof. intros H. unfold parseApiError. rewrite H. reflexivity. Qed.

Lemma parseApiError_403 response body :
  Response.status response = 403 ->
  parseApiError response body = ForbiddenError_new (api_message response body).
Proof. intros H. unfold parseApiError. rewrite H. reflexivity. Qed.

Lemma parseApiError_404 response body :
  Response.status response = 404 ->
  parseApiError response body
  = Ok (VeilMailError.mk "NotFoundError" "Resource not found" (VStr "not_found")
          (Some 404) VUndefined None None).
Proof. intros H. unfold parseApiError. rewrite H. reflexivity. Qed.

Lemma parseApiError_422 response body :
  Response.status response = 422 ->
  parseApiError response body
  = if is_string (api_code body) "pii_detected"
       && truthy (opt_get (api_details body) "piiTypes")
    then PiiDetectedError_new (api_message response body)
           (opt_get (api_details body) "piiTypes")
    else ValidationError_new (api_message response body) (api_details body).
Proof. intros H. unfold parseApiError. rewrite H. reflexivity. Qed.

Lemma parseApiError_429 response body :
  Response.status response = 429 ->
  parseApiError response body
  = RateLimitError_new (api_message response body)
      (match Headers_get (Response.headers response) "Retry-After" with
       | Some v => if nonempty v then Some (parseInt v) else None
       | None => None
       end).
Proof. intros H. unfold parseApiError. rewrite H. reflexivity. Qed.

Lemma parseApiError_5xx response body :
  500 <= Response.status response ->
  parseApiError response body
  = ServerError_new (api_message response body) (Some (Response.status response)).
Proof.
  intros H. unfold parseApiError.
  repeat match goal with
         | |- context [Response.status response =? ?c] =>
             destruct (Z.eqb_spec (Response.status response) c); [lia |]
         end.
  destruct (Z.leb_spec 500 (Response.status response)); [reflexivity | lia].
Qed.

Lemma parseApiError_other response body :
  Response.status response < 500 ->
  ~ In (Response.status response) [401; 403; 404; 422; 429] ->
  parseApiError response body
  = VeilMailError_new (api_message response body) (api_code body)
      (Some (Response.status response)) (api_details body).
Proof.
  intros Hlt Hnot. unfold parseApiError.
  repeat match goal with
         | |- context [Response.status response =? ?c] =>
             destruct (Z.eqb_spec (Response.status response) c) as [Hc | Hc];
             [exfalso; apply Hnot; rewrite Hc; simpl; host_tauto | clear Hc]
         end.
  destruct (Z.leb_spec 500 (Response.status response)); [lia | reflexivity].
Qed.

(** Which branch a status takes. *)
Lemma status_cases (status : Z) :
  status = 401 \/ status = 403 \/ status = 404 \/ status = 422 \/ status = 429
  \/ 500 <= status
  \/ (status < 500 /\ ~ In status [401; 403; 404; 422; 429]).
Proof.
  destruct (Z.eq_dec status 401); [host_tauto |].
  destruct (Z.eq_dec status 403); [host_tauto |].
  destruct (Z.eq_dec status 404); [host_tauto |].
  destruct (Z.eq_dec status 422); [host_tauto |].
  destruct (Z.eq_dec status 429); [host_tauto |].
  destruct (Z_le_gt_dec 500 status); [host_tauto |].
  do 6 right. split; [lia |]. simpl. drop_host. intuition.
Qed.

Ltac close_table :=
  simpl; repeat split; intros; try lia; try reflexivity; try host_tauto; try assumption;
  try (exfalso;
       match goal with
       | Hnot : ~ In _ _ |- _ => apply Hnot; simpl; host_tauto
       | Hnot : ~ In _ _, Hst : _ = _ |- _ => apply Hnot; rewrite Hst; simpl; host_tauto
       end).

Ltac fail_construct Hs :=
  unfold AuthenticationError_new, ForbiddenError_new, ValidationError_new,
    PiiDetectedError_new, RateLimitError_new, ServerError_new;
  rewrite ?default_arg_defined by apply api_message_defined;
  rewrite (VeilMailError_new_fails _ _ _ _ _ Hs); reflexivity.

Ltac construct Hs :=
  unfold AuthenticationError_new, ForbiddenError_new, ValidationError_new,
    PiiDetectedError_new, RateLimitError_new, ServerError_new;
  rewrite ?default_arg_defined by apply api_message_defined;
  rewrite (VeilMailError_new_converts _ _ _ _ _ _ Hs); simpl.

(** [parseApiError] returns as soon as the message converts, and the
    message of the error is the converted one except for a 404. *)
Lemma parseApiError_returns response body s :
  ToString (api_message response body) = Some s ->
  exists e,
    parseApiError response body = Ok e
    /\ (Response.status response <> 404 -> VeilMailError.message e = s).
Proof.
  intros Hs.
  destruct (status_cases (Response.status response))
    as [H | [H | [H | [H | [H | [H | [Hlt Hnot]]]]]]].
  - rewrite (parseApiError_401 _ _ H). construct Hs. eauto.
  - rewrite (parseApiError_403 _ _ H). construct Hs. eauto.
  - rewrite (parseApiError_404 _ _ H). eexists. split; [reflexivity | host_tauto].
  - rewrite (parseApiError_422 _ _ H).
    destruct (is_string (api_code body) "pii_detected"
              && truthy (opt_get (api_details body) "piiTypes"));
      construct Hs; eauto.
  - rewrite (parseApiError_429 _ _ H). construct Hs. eauto.
  - rewrite (parseApiError_5xx _ _ H). construct Hs. eauto.
  - rewrite (parseApiError_other _ _ Hlt Hnot).
    rewrite (VeilMailError_new_converts _ _ _ _ _ _ Hs). eauto.
Qed.

(** Otherwise the constructor of the error throws, but for a 404. *)
Lemma parseApiError_fails response body :
  Response.status response <> 404 ->
  ToString (api_message response body) = None ->
  parseApiError response body
  = Throw (ThrownError "TypeError" "Cannot convert object to primitive value").
Proof.
  intros Hn404 Hs.
  destruct (status_cases (Response.status response))
    as [H | [H | [H | [H | [H | [H | [Hlt Hnot]]]]]]].
  - rewrite (parseApiError_401 _ _ H). fail_construct Hs.
  - rewrite (parseApiError_403 _ _ H). fail_construct Hs.
  - contradiction.
  - rewrite (parseApiError_422 _ _ H).
    destruct (is_string (api_code body) "pii_detected"
              && truthy (opt_get (api_details body) "piiTypes"));
      fail_construct Hs.
  - rewrite (parseApiError_429 _ _ H). fail_construct Hs.
  - rewrite (parseApiError_5xx _ _ H). fail_construct Hs.
  - rewrite (parseApiError_other _ _ Hlt Hnot).
    apply VeilMailError_new_fails, Hs.
Qed.

(** C1 (as amended).  Whenever the message taken from the body converts
    to a string, and for every 404, [parseApiError] returns an error whose
    kind is the one of the status table: 401 authentication, 403
    forbidden, 404 not found, 422 validation or PII detected, 429 rate
    limited, 500 and above server, and any other status the generic error
    with the code, message and details of the body. *)
Theorem parseApiError_status_table response body :
  Response.status response = 404
  \/ is_Some (ToString (api_message response body)) ->
  exists e,
    parseApiError response body = Ok e /\
    let status := Response.status response in
    let kind := VeilMailError.name e in
    (status = 401 -> kind = "AuthenticationError") /\
    (status = 403 -> kind = "ForbiddenError") /\
    (status = 404 -> kind = "NotFoundError") /\
    (status = 422 -> kind = "ValidationError" \/ kind = "PiiDetectedError") /\
    (status = 429 -> kind = "RateLimitError") /\
    (500 <= status ->
       kind = "ServerError" /\ VeilMailError.status e = Some status) /\
    (status < 500 -> ~ In status [401; 403; 404; 422; 429] ->
       kind = "VeilMailError"
       /\ VeilMailError.code e = api_code body
       /\ ToString (api_message response body) = Some (VeilMailError.message e)
       /\ VeilMailError.status e = Some status
       /\ VeilMailError.details e = api_details body).
Proof.
  intros Hconv.
  destruct (Z.eq_dec (Response.status response) 404) as [H404 | Hn404].
  - eexists. split; [apply parseApiError_404; exact H404 |].
    rewrite H404. close_table.
  - destruct Hconv as [? | [s Hs]]; [contradiction |].
    destruct (status_cases (Response.status response))
      as [H | [H | [H | [H | [H | [H | [Hlt Hnot]]]]]]].
    + rewrite (parseApiError_401 _ _ H). construct Hs.
      eexists. split; [reflexivity |]. rewrite H. close_table.
    + rewrite (parseApiError_403 _ _ H). construct Hs.
      eexists. split; [reflexivity |]. rewrite H. close_table.
    + contradiction.
    + rewrite (parseApiError_422 _ _ H).
      destruct (is_string (api_code body) "pii_detected"
                && truthy (opt_get (api_details body) "piiTypes"));
        construct Hs; (eexists; split; [reflexivity |]); rewrite H; close_table.
    + rewrite (parseApiError_429 _ _ H). construct Hs.
      eexists. split; [reflexivity |]. rewrite H. close_table.
    + rewrite (parseApiError_5xx _ _ H). construct Hs.
      eexists. split; [reflexivity |]. close_table.
    + rewrite (parseApiError_other _ _ Hlt Hnot).
      rewrite (VeilMailError_new_converts _ _ _ _ _ _ Hs).
      eexists. split; [reflexivity |]. close_table.
Qed.

(** ** Numbers read by [parseInt] *)

Lemma read_digits_value s :
  forall_chars is_digit s = true ->
  forall acc,
    read_digits s (Some acc)
    = Some (acc * 10 ^ Z.of_nat (String.length s) + digits_value s).
Proof.
  induction s as [| c s IH]; intros Hs acc.
  - simpl. f_equal. lia.
  - simpl in Hs. apply andb_true_iff in Hs. destruct Hs as [Hc Hs].
    simpl read_digits. rewrite Hc. simpl default. rewrite (IH Hs). f_equal.
    change (String.length (String c s)) with (S (String.length s)).
    change (digits_value (String c s))
      with (digit_value c * 10 ^ Z.of_nat (String.length s) + digits_value s).
    rewrite Nat2Z.inj_succ, Z.pow_succ_r by lia. unfold id. ring.
Qed.

Lemma read_all_digits s :
  all_digits s = true -> read_digits s None = Some (digits_value s).
Proof.
  unfold all_digits. destruct s as [| c s]; [discriminate |].
  intros Hs. simpl in Hs. apply andb_true_iff in Hs. destruct Hs as [Hc Hs].
  simpl read_digits. rewrite Hc. simpl default. rewrite (read_digits_value _ Hs).
  reflexivity.
Qed.

Lemma digit_not_white_space c : is_digit c = true -> is_white_space c = false.
Proof.
  unfold is_digit, is_white_space. intros H.
  apply andb_true_iff in H. destruct H as [H1 H2].
  apply Z.leb_le in H1. apply Z.leb_le in H2.
  repeat match goal with
         | |- context [?a <=? ?b] => destruct (Z.leb_spec a b)
         | |- context [?a =? ?b] => destruct (Z.eqb_spec a b)
         end; simpl; try reflexivity; lia.
Qed.

Lemma roundToDouble_exact n : Z.abs n <= 2 ^ 53 -> roundToDouble n = Int n.
Proof.
  intros H. unfold roundToDouble.
  destruct (Z.ltb_spec (Z.abs n) (2 ^ 53)) as [| Hge]; [reflexivity |].
  assert (Hn : n = 2 ^ 53 \/ n = - 2 ^ 53) by lia.
  destruct Hn as [-> | ->]; reflexivity.
Qed.

Lemma parseInt_decimal_integer v n :
  decimal_integer v = Some n -> parseInt v = roundToDouble n.
Proof.
  destruct v as [| c rest]; [discriminate |]. unfold decimal_integer, parseInt.
  destruct (Ascii.eqb_spec c "-") as [-> | Hminus].
  - destruct (all_digits rest) eqn:Hd; [| discriminate]. intros [= <-].
    simpl. rewrite (read_all_digits _ Hd). f_equal; lia.
  - destruct (Ascii.eqb_spec c "+") as [-> | Hplus].
    + destruct (all_digits rest) eqn:Hd; [| discriminate]. intros [= <-].
      simpl. rewrite (read_all_digits _ Hd). f_equal; lia.
    + destruct (all_digits (String c rest)) eqn:Hd; [| discriminate]. intros [= <-].
      assert (Hc : is_digit c = true).
      { unfold all_digits in Hd. simpl in Hd.
        apply andb_true_iff in Hd. apply Hd. }
      simpl trimStart. rewrite (digit_not_white_space _ Hc).
      destruct (Ascii.eqb_spec c "-"); [contradiction |].
      destruct (Ascii.eqb_spec c "+"); [contradiction |].
      rewrite (read_all_digits _ Hd), Z.mul_1_l. reflexivity.
Qed.

Lemma decimal_integer_nonempty v n : decimal_integer v = Some n -> nonempty v = true.
Proof. destruct v; [discriminate | reflexivity]. Qed.

(** ** The 422 and 429 branches *)

(** C4 (as amended).  A 422 response whose body carries the code
    pii_detected and a truthy details.piiTypes (every list is truthy)
    yields a [PiiDetectedError] whose piiTypes field is that value; every
    other 422 response yields a [ValidationError] carrying the details of
    the body.  (The message taken from the body must convert to a
    string.) *)
Theorem parseApiError_unprocessable response body :
  Response.status response = 422 ->
  is_Some (ToString (api_message response body)) ->
  exists e,
    parseApiError response body = Ok e /\
    ToString (api_message response body) = Some (VeilMailError.message e) /\
    let pii := opt_get (api_details body) "piiTypes" in
    (if is_string (api_code body) "pii_detected" && truthy pii
     then VeilMailError.name e = "PiiDetectedError"
          /\ VeilMailError.piiTypes e = Some pii
          /\ VeilMailError.details e = VObj {[ "piiTypes" := pii ]}
     else VeilMailError.name e = "ValidationError"
          /\ VeilMailError.piiTypes e = None
          /\ VeilMailError.details e = api_details body) /\
    (forall l, api_code body = VStr "pii_detected" -> pii = VArr l ->
       VeilMailError.name e = "PiiDetectedError"
       /\ VeilMailError.piiTypes e = Some (VArr l)).
Proof.
  intros H [s Hs]. rewrite (parseApiError_422 _ _ H).
  destruct (is_string (api_code body) "pii_detected"
            && truthy (opt_get (api_details body) "piiTypes")) eqn:Hpii;
    construct Hs; (eexists; split; [reflexivity |]); simpl;
    (split; [exact Hs |]); rewrite Hpii; (split; [auto |]).
  - intros l _ ->. auto.
  - intros l Hcode Hl. rewrite Hcode, Hl in Hpii. discriminate Hpii.
Qed.

(** C9.  A validation error returned for a 422 response carries the
    status 400, which is not the status of the response. *)
Theorem ValidationError_status_400 response body e :
  Response.status response = 422 ->
  parseApiError response body = Ok e ->
  VeilMailError.name e = "ValidationError" ->
  VeilMailError.status e = Some 400
  /\ VeilMailError.status e <> Some (Response.status response).
Proof.
  intros H He Hname. rewrite (parseApiError_422 _ _ H) in He.
  assert (Hstatus : VeilMailError.status e = Some 400).
  { destruct (is_string (api_code body) "pii_detected"
              && truthy (opt_get (api_details body) "piiTypes")).
    - unfold PiiDetectedError_new, VeilMailError_new in He.
      destruct (Error_message (api_message response body)); simpl in He;
        [| discriminate].
      injection He as <-. discriminate Hname.
    - unfold ValidationError_new, VeilMailError_new in He.
      destruct (Error_message (api_message response body)); simpl in He;
        [| discriminate].
      injection He as <-. reflexivity. }
  split; [exact Hstatus |]. rewrite Hstatus, H. discriminate.
Qed.

(** C5 (as amended).  A 429 response yields a [RateLimitError] whose
    retryAfter field is what [parseInt] reads in the Retry-After header:
    when the header is an optionally signed decimal integer of magnitude
    at most 2^53, the field is that integer, and when the header is
    absent the field is absent.  (The message taken from the body must
    convert to a string.) *)
Theorem RateLimitError_retryAfter response body :
  Response.status response = 429 ->
  is_Some (ToString (api_message response body)) ->
  exists e,
    parseApiError response body = Ok e /\
    VeilMailError.name e = "RateLimitError" /\
    (forall v,
       Headers_get (Response.headers response) "Retry-After" = Some v ->
       nonempty v = true ->
       VeilMailError.retryAfter e = Some (parseInt v)) /\
    (forall v n,
       Headers_get (Response.headers response) "Retry-After" = Some v ->
       decimal_integer v = Some n -> Z.abs n <= 2 ^ 53 ->
       VeilMailError.retryAfter e = Some (Int n)) /\
    (Headers_get (Response.headers response) "Retry-After" = None ->
     VeilMailError.retryAfter e = None).
Proof.
  intros H [s Hs]. rewrite (parseApiError_429 _ _ H). construct Hs.
  eexists. split; [reflexivity |]. simpl. split; [reflexivity |].
  split; [| split].
  - intros v -> ->. reflexivity.
  - intros v n -> Hv Hn.
    rewrite (decimal_integer_nonempty _ _ Hv).
    rewrite (parseInt_decimal_integer _ _ Hv), (roundToDouble_exact _ Hn).
    reflexivity.
  - intros ->. reflexivity.
Qed.

(** ** Messages *)

(** C6 (as amended).  A timeout error, a network error and a not-found
    error carry a non-empty message.  Any other error returned by
    [parseApiError] carries as its message the string form of the message
    of the body, or of the status text when the body has none: it is
    non-empty exactly when that string is. *)
Theorem error_messages :
  (forall timeout, exists e,
     TimeoutError_new timeout = Ok e /\ VeilMailError.message e <> "") /\
  (forall cause, exists e,
     NetworkError_new ("Network error: " +:+ cause) = Ok e
     /\ VeilMailError.message e <> "") /\
  (forall response body e,
     parseApiError response body = Ok e ->
     if Response.status response =? 404
     then VeilMailError.message e = "Resource not found"
     else ToString (api_message response body) = Some (VeilMailError.message e)).
Proof.
  split; [| split].
  - intros timeout. eexists. split; [reflexivity |]. simpl. discriminate.
  - intros cause. eexists. split; [reflexivity |]. simpl. discriminate.
  - intros response body e He.
    destruct (Z.eqb_spec (Response.status response) 404) as [H404 | Hn404].
    + rewrite (parseApiError_404 _ _ H404) in He. injection He as <-. reflexivity.
    + destruct (ToString (api_message response body)) as [s |] eqn:Hs.
      * destruct (parseApiError_returns response body s Hs) as [e' [He' Hm]].
        rewrite He in He'. injection He' as <-.
        rewrite Hm; [reflexivity | exact Hn404].
      * exfalso. rewrite (parseApiError_fails response body Hn404 Hs) in He.
        discriminate He.
Qed.

(** ** The transport *)

(** C3.  Constructing the transport, or the client around it, succeeds
    exactly when the API key is present and starts with veil_live_ or
    veil_test_; otherwise the constructor throws an [Error], and no
    transport exists to issue a request with. *)
Theorem constructor_checks_key config :
  match VeilMailConfig.apiKey config with
  | Some key =>
      if String.prefix "veil_live_" key || String.prefix "veil_test_" key
      then exists http,
             HttpClient_new config = Ok http
             /\ HttpClient.apiKey http = key
             /\ VeilMail_new (inr config) = Ok (VeilMail.mk http)
             /\ exists http', VeilMail_new (inl key) = Ok (VeilMail.mk http')
      else exists m,
             HttpClient_new config = Throw (ThrownError "Error" m)
             /\ VeilMail_new (inr config) = Throw (ThrownError "Error" m)
             /\ VeilMail_new (inl key) = Throw (ThrownError "Error" m)
  | None =>
      HttpClient_new config = Throw (ThrownError "Error" "API key is required")
      /\ VeilMail_new (inr config) = Throw (ThrownError "Error" "API key is required")
  end.
Proof.
  destruct config as [[key |] base timeout]; simpl VeilMailConfig.apiKey;
    [| split; reflexivity].
  unfold VeilMail_new, HttpClient_new, startsWith. simpl VeilMailConfig.apiKey.
  destruct key as [| c key]; [simpl; eauto |].
  change (nonempty (String c key)) with true. cbn [negb].
  destruct (String.prefix "veil_live_" (String c key));
    destruct (String.prefix "veil_test_" (String c key)); simpl; eauto 10.
Qed.

(** What [request] throws is never the abort signal: the [catch] block
    replaces every error named AbortError. *)
Lemma handle_error_hides_abort {A} client error t n m :
  @handle_error A client error = Throw t ->
  as_Error t = Some (n, m) -> n <> "AbortError".
Proof.
  unfold handle_error.
  destruct (as_Error error) as [[name message] |] eqn:Herr.
  - destruct (String.eqb_spec name "AbortError") as [-> | Hname].
    + simpl. intros [= <-] [= <- _]. discriminate.
    + destruct (String.eqb name "TypeError" && includes message "fetch").
      * simpl. intros [= <-] [= <- _]. discriminate.
      * intros [= <-]. rewrite Herr. intros [= <- _]. exact Hname.
  - intros [= <-]. rewrite Herr. discriminate.
Qed.

Lemma request_hides_abort client method path options t n m :
  request client method path options = Throw t ->
  as_Error t = Some (n, m) -> n <> "AbortError".
Proof.
  unfold request.
  destruct (request_url client path (RequestOptions.query options)).
  - destruct (handle_response _); [discriminate |].
    apply handle_error_hides_abort.
  - intros [= <-] [= <- _]. discriminate.
Qed.

(** The names [parseApiError] gives its errors. *)
Lemma parseApiError_name response body e :
  parseApiError response body = Ok e ->
  In (VeilMailError.name e)
     ["AuthenticationError"; "ForbiddenError"; "NotFoundError"; "ValidationError";
      "PiiDetectedError"; "RateLimitError"; "ServerError"; "VeilMailError"].
Proof.
  intros He.
  destruct (Z.eq_dec (Response.status response) 404) as [H404 | Hn404].
  - rewrite (parseApiError_404 _ _ H404) in He. injection He as <-. simpl. auto 10.
  - destruct (ToString (api_message response body)) as [s |] eqn:Hs;
      [| rewrite (parseApiError_fails _ _ Hn404 Hs) in He; discriminate He].
    revert He.
    destruct (status_cases (Response.status response))
      as [H | [H | [H | [H | [H | [H | [Hlt Hnot]]]]]]].
    + rewrite (parseApiError_401 _ _ H). construct Hs. intros [= <-]. simpl. auto 10.
    + rewrite (parseApiError_403 _ _ H). construct Hs. intros [= <-]. simpl. auto 10.
    + contradiction.
    + rewrite (parseApiError_422 _ _ H).
      destruct (is_string (api_code body) "pii_detected"
                && truthy (opt_get (api_details body) "piiTypes"));
        construct Hs; intros [= <-]; simpl; auto 10.
    + rewrite (parseApiError_429 _ _ H). construct Hs. intros [= <-]. simpl. auto 10.
    + rewrite (parseApiError_5xx _ _ H). construct Hs. intros [= <-]. simpl. auto 10.
    + rewrite (parseApiError_other _ _ Hlt Hnot).
      rewrite (VeilMailError_new_converts _ _ _ _ _ _ Hs). intros [= <-].
      simpl. auto 10.
Qed.

(** The [catch] block lets a classified error through as it is. *)
Lemma handle_error_classified {A} client response body e :
  parseApiError response body = Ok e ->
  @handle_error A client (ThrownSDK e) = Throw (ThrownSDK e).
Proof.
  intros He. apply parseApiError_name in He. unfold handle_error. simpl.
  simpl in He.
  repeat (destruct He as [<- | He]; [reflexivity |]). contradiction.
Qed.

(** A response that is not a success, once its body is read, makes
    [request] throw the error [parseApiError] returns for it. *)
Lemma request_throws_classified client method path options url response e :
  request_url client path (RequestOptions.query options) = Some url ->
  fetch url (request_init client method options) = Responded response ->
  Response.ok response = false ->
  forall body,
    read_body response = Ok body ->
    parseApiError response body = Ok e ->
    request client method path options = Throw (ThrownSDK e).
Proof.
  intros Hurl Hfetch Hok body Hbody He. unfold request. rewrite Hurl, Hfetch. simpl.
  assert (H204 : Response.status response <> 204).
  { intros H. unfold Response.ok in Hok. rewrite H in Hok. discriminate Hok. }
  destruct (Z.eqb_spec (Response.status response) 204); [contradiction |].
  rewrite Hbody. simpl. rewrite Hok, He. simpl.
  apply (handle_error_classified _ _ _ _ He).
Qed.

(** The timer of a duration that has elapsed is due. *)
Lemma setTimeout_delay_elapsed q after :
  (0 <= q)%Q -> (q < inject_Z after)%Q -> setTimeout_delay (Fin q) <= after.
Proof.
  intros Hq Hafter. unfold setTimeout_delay.
  destruct (Qle_bool 1 q && Qle_bool q (inject_Z TIMEOUT_MAX)).
  - pose proof (Qfloor_le q) as Hfloor.
    assert (Hlt : (inject_Z (Qfloor q) < inject_Z after)%Q)
      by (eapply Qle_lt_trans; eassumption).
    rewrite <- Zlt_Qlt in Hlt. lia.
  - assert (Hlt : (inject_Z 0 < inject_Z after)%Q)
      by (eapply Qle_lt_trans; eassumption).
    rewrite <- Zlt_Qlt in Hlt. lia.
Qed.

(** What the [try] block throws once a response is there: the error of
    the parser, the error of the error constructor, or a classified
    error. *)
Lemma handle_response_throws response t :
  handle_response (Responded response) = Throw t ->
  (exists m, t = ThrownError "SyntaxError" m)
  \/ t = ThrownError "TypeError" "Cannot convert object to primitive value"
  \/ exists body e, parseApiError response body = Ok e /\ t = ThrownSDK e.
Proof.
  unfold handle_response.
  destruct (Response.status response =? 204); [discriminate |].
  unfold read_body.
  destruct (indicates_json _).
  - destruct (JSON_parse (Response.text response)) as [v | m]; simpl.
    + destruct (negb (Response.ok response)); [| discriminate].
      destruct (parseApiError response v) as [e | t'] eqn:He; simpl; intros [= <-].
      * right. right. eauto.
      * right. left.
        destruct (Z.eq_dec (Response.status response) 404) as [H404 | Hn404];
          [rewrite (parseApiError_404 _ _ H404) in He; discriminate He |].
        destruct (ToString (api_message response v)) as [s |] eqn:Hs.
        -- destruct (parseApiError_returns _ _ _ Hs) as (e & He' & _). congruence.
        -- rewrite (parseApiError_fails _ _ Hn404 Hs) in He. congruence.
    + intros [= <-]. left. eauto.
  - simpl. destruct (negb (Response.ok response)); [| discriminate].
    destruct (parseApiError response (VStr (Response.text response)))
      as [e | t'] eqn:He; simpl; intros [= <-].
    + right. right. eauto.
    + destruct (parseApiError_returns response (VStr (Response.text response))
                  (Response.statusText response) eq_refl) as (e & He' & _).
      congruence.
Qed.

(** C2 (as amended).  The request carries the signal of a controller
    that a timer aborts after the configured timeout, as [setTimeout]
    counts it; a configured duration that has elapsed is one for which
    the timer is due.  When the timer is due before [fetch] settles, that
    is before the head of a response arrives, [request] throws a
    [TimeoutError] whose message carries the configured timeout in
    milliseconds.  When the head arrives before the timer is due, no
    [TimeoutError] is thrown, however long the body takes.  No error
    named AbortError ever reaches the caller. *)
Theorem request_timeout client method path options url :
  request_url client path (RequestOptions.query options) = Some url ->
  let init := request_init client method options in
  let delay := setTimeout_delay (HttpClient.timeout client) in
  RequestInit.signal init = AbortSignal.mk delay
  /\ (forall q after,
        HttpClient.timeout client = Fin q -> (0 <= q)%Q ->
        (q < inject_Z after)%Q -> delay <= after)
  /\ (match network url init with
      | Answers after _ _ | Rejects after _ => delay <= after
      | Pending => True
      end ->
      request client method path options
      = Throw (ThrownSDK
                 (VeilMailError.mk "TimeoutError"
                    ("Request timed out after "
                     +:+ Number_toString (HttpClient.timeout client) +:+ "ms")
                    (VStr "timeout") None VUndefined None None)))
  /\ (forall after response body_after,
        network url init = Answers after response body_after ->
        after < delay ->
        fetch url init = Responded response
        /\ forall e,
             request client method path options = Throw (ThrownSDK e) ->
             VeilMailError.name e <> "TimeoutError")
  /\ (forall t n m,
        request client method path options = Throw t ->
        as_Error t = Some (n, m) -> n <> "AbortError").
Proof.
  intros Hurl init delay. split; [reflexivity |]. split; [| split; [| split]].
  - intros q after Hq. unfold delay. rewrite Hq. apply setTimeout_delay_elapsed.
  - intros Hdue.
    assert (Hfetch : fetch url init = Aborted).
    { unfold fetch. change (AbortSignal.aborts_after (RequestInit.signal init))
        with delay.
      destruct (network url init) as [after response body_after | after error |];
        [| | reflexivity];
        destruct (Z.ltb_spec after delay); (lia || reflexivity). }
    unfold request. rewrite Hurl. fold init. rewrite Hfetch. reflexivity.
  - intros after response body_after Hnet Hlt.
    assert (Hfetch : fetch url init = Responded response).
    { unfold fetch. change (AbortSignal.aborts_after (RequestInit.signal init))
        with delay.
      rewrite Hnet. destruct (Z.ltb_spec after delay); [reflexivity | lia]. }
    split; [exact Hfetch |].
    intros e. unfold request. rewrite Hurl. fold init. rewrite Hfetch.
    destruct (handle_response (Responded response)) as [v | t] eqn:Hresp;
      [discriminate |].
    destruct (handle_response_throws _ _ Hresp)
      as [[m ->] | [-> | (body & e' & He' & ->)]].
    + discriminate.
    + discriminate.
    + rewrite (handle_error_classified _ _ _ _ He'). intros [= <-].
      pose proof (parseApiError_name _ _ _ He') as Hname. simpl in Hname.
      intros Htimeout. rewrite Htimeout in Hname. drop_host.
      intuition discriminate.
  - apply request_hides_abort.
Qed.

(** C7.  A 204 response resolves to [undefined] whatever its body and
    content type; any other successful response whose content type does
    not include application/json resolves to its raw text. *)
Theorem request_success_body client method path options url response :
  request_url client path (RequestOptions.query options) = Some url ->
  fetch url (request_init client method options) = Responded response ->
  (Response.status response = 204 ->
   request client method path options = Ok VUndefined)
  /\ (Response.status response <> 204 ->
      Response.ok response = true ->
      indicates_json (Headers_get (Response.headers response) "content-type") = false ->
      request client method path options = Ok (VStr (Response.text response))).
Proof.
  intros Hurl Hfetch. unfold request. rewrite Hurl, Hfetch. split.
  - intros H. simpl. rewrite H. reflexivity.
  - intros H Hok Hct. simpl.
    destruct (Z.eqb_spec (Response.status response) 204); [contradiction |].
    unfold read_body. rewrite Hct. simpl. rewrite Hok. reflexivity.
Qed.

(** ** The request URL *)

Lemma append_cons c a b : String c a +:+ b = String c (a +:+ b).
Proof. reflexivity. Qed.

Lemma append_empty_r s : s +:+ "" = s.
Proof.
  induction s as [| c s IH]; [reflexivity |]. rewrite append_cons, IH. reflexivity.
Qed.

Lemma append_assoc a b c : (a +:+ b) +:+ c = a +:+ (b +:+ c).
Proof.
  induction a as [| x a IH]; [reflexivity |]. rewrite !append_cons, IH. reflexivity.
Qed.

Lemma nonempty_append a b : nonempty (a +:+ b) = nonempty a || nonempty b.
Proof. destruct a; reflexivity. Qed.

Lemma prefix_append a b : String.prefix a (a +:+ b) = true.
Proof.
  induction a as [| x a IH]; [destruct b; reflexivity |].
  rewrite append_cons. simpl. destruct (ascii_dec x x); [exact IH | contradiction].
Qed.



Lemma set_param_fresh l k v :
  ~ In k (List.map fst l) -> set_param l k v = (l ++ [(k, v)])%list.
Proof.
  induction l as [| [k' v'] l IH]; simpl; [reflexivity |].
  intros Hk. destruct (String.eqb_spec k' k) as [-> | _]; [host_tauto |].
  rewrite IH; [reflexivity | host_tauto].
Qed.

Lemma urlencoded_serialize_nonempty l :
  l <> [] -> nonempty (urlencoded_serialize l) = true.
Proof.
  destruct l as [| [k v] l]; [congruence | intros _].
  unfold urlencoded_serialize. simpl.
  destruct (List.map _ l);
    rewrite ?nonempty_append; simpl;
    destruct (nonempty (urlencode k)); reflexivity.
Qed.


(** The query loop appends the defined entries, in order, when the keys
    are those of one object: distinct, and new to the URL. *)
Lemma add_query_entries entries :
  forall u,
    List.NoDup (List.map fst entries) ->
    (forall k, In k (List.map fst entries) ->
               ~ In k (List.map fst (URL.searchParams u))) ->
    let u' := add_query u (Some entries) in
    URL.site u' = URL.site u /\ URL.pathname u' = URL.pathname u
    /\ URL.fragment u' = URL.fragment u
    /\ URL.searchParams u' = (URL.searchParams u ++ defined_params entries)%list
    /\ URL.query u'
       = match defined_params entries with
         | [] => URL.query u
         | _ => Some (urlencoded_serialize (URL.searchParams u'))
         end.
Proof.
  induction entries as [| [k v] entries IH]; intros u Hnodup Hfresh.
  - simpl. rewrite app_nil_r. auto.
  - change (add_query u (Some ((k, v) :: entries)))
      with (add_query (add_query_step u (k, v)) (Some entries)).
    simpl in Hnodup. apply NoDup_cons_iff in Hnodup. destruct Hnodup as [Hk Hrest].
    assert (Hfresh' : forall k', In k' (List.map fst entries) ->
                                 ~ In k' (List.map fst (URL.searchParams u))).
    { intros k' Hin. apply Hfresh. simpl. host_tauto. }
    destruct (is_defined v) eqn:Hv.
    + assert (Hstep : add_query_step u (k, v)
                      = URL_searchParams_set u k (String_of v))
        by (destruct v; [discriminate Hv | reflexivity ..]).
      rewrite Hstep. clear Hstep.
      set (u1 := URL_searchParams_set u k (String_of v)).
      assert (Hsp1 : URL.searchParams u1
                     = (URL.searchParams u ++ [(k, String_of v)])%list).
      { unfold u1, URL_searchParams_set. simpl.
        apply set_param_fresh, Hfresh. simpl. host_tauto. }
      assert (Hq1 : URL.query u1 = Some (urlencoded_serialize (URL.searchParams u1))).
      { unfold u1, URL_searchParams_set. simpl.
        rewrite urlencoded_serialize_nonempty; [reflexivity |].
        rewrite set_param_fresh by (apply Hfresh; simpl; host_tauto).
        destruct (URL.searchParams u); discriminate. }
      destruct (IH u1 Hrest) as (Hsite & Hpath & Hfrag & Hsp & Hq).
      { intros k' Hin. rewrite Hsp1, List.map_app, in_app_iff. simpl.
        intros [Hin' | [<- | []]]; [exact (Hfresh' _ Hin Hin') | exact (Hk Hin)]. }
      unfold defined_params. simpl List.filter. rewrite Hv. simpl List.map.
      fold (defined_params entries).
      split; [exact Hsite |]. split; [exact Hpath |]. split; [exact Hfrag |]. split.
      * rewrite Hsp, Hsp1, <- app_assoc. reflexivity.
      * destruct (defined_params entries); [| exact Hq].
        rewrite Hq, Hq1, Hsp, app_nil_r. reflexivity.
    + assert (Hstep : add_query_step u (k, v) = u)
        by (destruct v; [reflexivity | discriminate Hv ..]).
      rewrite Hstep. unfold defined_params. simpl List.filter. rewrite Hv.
      exact (IH u Hrest Hfresh').
Qed.

Lemma append_empty_l s : "" +:+ s = s.
Proof. reflexivity. Qed.

Lemma forall_chars_append ok a b :
  forall_chars ok (a +:+ b) = forall_chars ok a && forall_chars ok b.
Proof.
  induction a as [| c a IH]; [reflexivity |].
  rewrite append_cons. simpl. rewrite IH. apply andb_assoc.
Qed.

Lemma forall_chars_impl (f g : ascii -> bool) s :
  (forall c, f c = true -> g c = true) ->
  forall_chars f s = true -> forall_chars g s = true.
Proof.
  intros Hfg. induction s as [| c s IH]; [reflexivity |]. simpl.
  intros H. apply andb_true_iff in H. destruct H as [Hc Hs].
  rewrite (Hfg _ Hc), (IH Hs). reflexivity.
Qed.

Lemma split_on_nonempty sep s : split_on sep s <> [].
Proof.
  destruct s as [| c s]; simpl; [discriminate |].
  destruct (Ascii.eqb c sep); [discriminate |].
  destruct (split_on sep s); discriminate.
Qed.

(** Splitting at a separator splits the list of segments. *)
Lemma split_on_append sep a b :
  split_on sep (a +:+ String sep b) = (split_on sep a ++ split_on sep b)%list.
Proof.
  induction a as [| c a IH].
  - rewrite append_empty_l. simpl. rewrite Ascii.eqb_refl. reflexivity.
  - rewrite append_cons. simpl. rewrite IH.
    destruct (Ascii.eqb c sep); [reflexivity |].
    pose proof (split_on_nonempty sep a) as Hne.
    destruct (split_on sep a); [contradiction | reflexivity].
Qed.

Lemma split_on_whole sep s :
  forall_chars (fun c => negb (Ascii.eqb c sep)) s = true -> split_on sep s = [s].
Proof.
  induction s as [| c s IH]; [reflexivity |]. simpl.
  intros H. apply andb_true_iff in H. destruct H as [Hc Hs].
  apply negb_true_iff in Hc. rewrite Hc, (IH Hs). reflexivity.
Qed.

Lemma safe_id_char c :
  is_alnum c || char_in "_-" c = true ->
  (is_alnum c || char_in "-._~!$&'()*+,;=:@/" c = true)
  /\ negb (Ascii.eqb c "/") = true /\ Ascii.eqb c "." = false.
Proof.
  drop_host.
  destruct c as [[] [] [] [] [] [] [] []]; vm_compute; intros H;
    repeat split; congruence.
Qed.

(** An identifier is one segment of a plain path, and no dot segment. *)
Lemma safe_id_segment id :
  safe_id id = true ->
  forall_chars (fun c => is_alnum c || char_in "-._~!$&'()*+,;=:@/" c) id = true
  /\ split_on "/" id = [id]
  /\ negb (String.eqb id ".") && negb (String.eqb id "..") = true.
Proof.
  unfold safe_id. intros Hid. split; [| split].
  - revert Hid. apply forall_chars_impl. intros c Hc. apply (safe_id_char c Hc).
  - apply split_on_whole. revert Hid. apply forall_chars_impl.
    intros c Hc. apply (safe_id_char c Hc).
  - destruct id as [| c id]; [reflexivity |]. simpl in Hid.
    apply andb_true_iff in Hid. destruct Hid as [Hc _].
    destruct (safe_id_char c Hc) as (_ & _ & Hdot).
    simpl. rewrite Hdot. reflexivity.
Qed.

Lemma prefix_one a p : String.prefix (String a "") (String a p) = true.
Proof.
  cbn [String.prefix]. destruct (ascii_dec a a); [| contradiction].
  destruct p; reflexivity.
Qed.

Lemma prefix_two a b x y p q :
  String.prefix (String a (String b "")) (String x (String y p))
  = String.prefix (String a (String b "")) (String x (String y q)).
Proof.
  cbn [String.prefix].
  destruct (ascii_dec a x); [| reflexivity].
  destruct (ascii_dec b y); [| reflexivity]. destruct p, q; reflexivity.
Qed.

(** A plain path stays plain when plain segments are added after a
    slash. *)
Lemma plain_path_join c p q :
  plain_path (String "/" (String c p)) = true ->
  forall_chars (fun c => is_alnum c || char_in "-._~!$&'()*+,;=:@/" c) q = true ->
  forallb (fun seg => negb (String.eqb seg ".") && negb (String.eqb seg ".."))
    (split_on "/" q) = true ->
  plain_path (String "/" (String c p) +:+ String "/" q) = true.
Proof.
  unfold plain_path. intros Hp Hq Hsegs.
  apply andb_true_iff in Hp. destruct Hp as [Hp Hdots].
  apply andb_true_iff in Hp. destruct Hp as [Hp Hchars].
  apply andb_true_iff in Hp. destruct Hp as [_ Hdouble].
  rewrite split_on_append, forallb_app, forall_chars_append, Hdots, Hsegs, Hchars.
  rewrite !append_cons, (prefix_two _ _ _ _ _ p), Hdouble, prefix_one.
  cbn [forall_chars]. rewrite Hq. reflexivity.
Qed.

Lemma plain_path_id c p id :
  plain_path (String "/" (String c p)) = true ->
  safe_id id = true ->
  plain_path (String "/" (String c p) +:+ String "/" id) = true.
Proof.
  intros Hp Hid. destruct (safe_id_segment id Hid) as (Hchars & Hsplit & Hdots).
  apply plain_path_join; [exact Hp | exact Hchars |].
  rewrite Hsplit. simpl. rewrite Hdots. reflexivity.
Qed.




Lemma base_site_plain base site :
  plain_site base = Some site -> base_site base = Some site.
Proof. intros H. unfold base_site. rewrite H. reflexivity. Qed.

(** The URL of a path kept as written and of a query object, on a base
    that has a site. *)
Lemma request_url_site client site path entries :
  base_site (HttpClient.baseUrl client) = Some site ->
  plain_path path = true ->
  List.NoDup (List.map fst entries) ->
  request_url client path None = Some (site +:+ path)
  /\ request_url client path (Some entries)
     = Some (site +:+ path
             +:+ match defined_params entries with
                 | [] => ""
                 | pairs => "?" +:+ urlencoded_serialize pairs
                 end).
Proof.
  intros Hsite Hpath Hnodup.
  unfold request_url, URL_new. rewrite Hsite, Hpath. split.
  - unfold URL_toString. simpl. rewrite !append_empty_r. reflexivity.
  - destruct (add_query_entries entries (URL.mk site path None [] None) Hnodup)
      as (Hs & Hp & Hf & Hsp & Hq); [simpl; host_tauto |].
    unfold URL_toString. rewrite Hs, Hp, Hf, Hq, Hsp. simpl.
    destruct (defined_params entries); rewrite !append_empty_r; reflexivity.
Qed.

(** The URL of a plain path and a query object, on a plain base. *)
Lemma request_url_entries client site path entries :
  plain_site (HttpClient.baseUrl client) = Some site ->
  plain_path path = true ->
  List.NoDup (List.map fst entries) ->
  request_url client path None = Some (site +:+ path)
  /\ request_url client path (Some entries)
     = Some (site +:+ path
             +:+ match defined_params entries with
                 | [] => ""
                 | pairs => "?" +:+ urlencoded_serialize pairs
                 end).
Proof.
  intros Hsite. apply request_url_site, base_site_plain, Hsite.
Qed.



(** *** Decoding what was encoded *)











(** ** The templates facade *)

Lemma request_answers_json client method path options url response v :
  request_url client path (RequestOptions.query options) = Some url ->
  fetch url (request_init client method options) = Responded response ->
  answers_json response v ->
  request client method path options = Ok v.
Proof.
  intros Hurl Hfetch (H204 & Hok & Hct & Hparse).
  unfold request. rewrite Hurl, Hfetch. simpl.
  destruct (Z.eqb_spec (Response.status response) 204); [contradiction |].
  unfold read_body. rewrite Hct, Hparse. simpl. rewrite Hok. reflexivity.
Qed.

Lemma create_body_variables params l :
  params !! "variables" = Some (VArr l) ->
  create_body params !! "variablesSchema" = Some (VArr l)
  /\ create_body params !! "variables" = None.
Proof.
  intros Hv. unfold create_body. rewrite Hv. simpl. split.
  - apply lookup_insert_eq.
  - rewrite lookup_insert_ne by discriminate. apply lookup_delete_eq.
Qed.

(** C8.  Create is a POST whose body is the JSON text of the body of
    create, in which the list variables stands as variablesSchema and no
    member is named variables; get is a GET without a body.  When the
    server answers both calls with the object it stored, and that object
    holds what create sent, both calls return the same template: the
    stored object with the wire field variablesSchema turned into the
    field variables.  The list sent comes back as variables; a stored
    object without variablesSchema comes back with the empty list.  When
    the stored object is exactly what create sent, both calls return the
    parameters of create. *)
Theorem Templates_create_get_roundtrip http params templateId stored url1 url2 r1 r2 :
  request_url http "/v1/templates" None = Some url1 ->
  fetch url1 (RequestInit.mk "POST" (request_headers http ∅)
                (Some (JSON_stringify (VObj (create_body params))))
                (timer_signal http))
  = Responded r1 ->
  request_url http ("/v1/templates/" +:+ templateId) None = Some url2 ->
  fetch url2 (RequestInit.mk "GET" (request_headers http ∅) None (timer_signal http))
  = Responded r2 ->
  answers_json r1 (VObj {[ "data" := VObj stored ]}) ->
  answers_json r2 (VObj {[ "data" := VObj stored ]}) ->
  create_body params ⊆ stored ->
  let variablesSchema := default VUndefined (stored !! "variablesSchema") in
  let template :=
    <[ "variables" := if truthy variablesSchema then variablesSchema else VArr [] ]>
      (delete "variablesSchema" stored) in
  Templates_create http params = Ok (VObj template)
  /\ Templates_get http templateId = Ok (VObj template)
  /\ (forall l, params !! "variables" = Some (VArr l) ->
        create_body params !! "variablesSchema" = Some (VArr l)
        /\ create_body params !! "variables" = None
        /\ template !! "variables" = Some (VArr l))
  /\ (stored !! "variablesSchema" = None -> template !! "variables" = Some (VArr []))
  /\ template !! "variablesSchema" = None
  /\ (forall l, stored = create_body params ->
        params !! "variables" = Some (VArr l) ->
        params !! "variablesSchema" = None ->
        template = params).
Proof.
  intros Hurl1 Hfetch1 Hurl2 Hfetch2 Hr1 Hr2 Hsub variablesSchema template.
  split; [| split; [| split; [| split; [| split]]]].
  - unfold Templates_create, HttpClient_post.
    rewrite (request_answers_json http "POST" "/v1/templates"
               (RequestOptions.mk (VObj (create_body params)) None ∅)
               _ _ _ Hurl1 Hfetch1 Hr1).
    simpl.
    rewrite lookup_singleton_eq. reflexivity.
  - unfold Templates_get, HttpClient_get.
    rewrite (request_answers_json http "GET" ("/v1/templates/" +:+ templateId)
               (RequestOptions.mk VUndefined None ∅) _ _ _ Hurl2 Hfetch2 Hr2).
    simpl.
    rewrite lookup_singleton_eq. reflexivity.
  - intros l Hl. destruct (create_body_variables _ _ Hl) as [Hschema Hvars].
    split; [exact Hschema |]. split; [exact Hvars |].
    unfold template, variablesSchema.
    rewrite (lookup_weaken _ _ _ _ Hschema Hsub). simpl.
    apply lookup_insert_eq.
  - intros Hnone. unfold template, variablesSchema. rewrite Hnone. simpl.
    apply lookup_insert_eq.
  - unfold template. rewrite lookup_insert_ne by discriminate.
    apply lookup_delete_eq.
  - intros l Hstored Hl Hnone. unfold template, variablesSchema.
    rewrite Hstored. unfold create_body. rewrite Hl. simpl.
    rewrite lookup_insert_eq. simpl. rewrite delete_insert_eq.
    rewrite (delete_id (delete "variables" params))
      by (rewrite lookup_delete_ne by discriminate; exact Hnone).
    rewrite insert_delete_eq. apply insert_id, Hl.
Qed.

(** * Further properties *)

(** ** The fields of the errors *)

(** Every error [parseApiError] returns, branch by branch. *)
Lemma parseApiError_inv response body e :
  parseApiError response body = Ok e ->
  let status := Response.status response in
  (status = 404
   /\ e = VeilMailError.mk "NotFoundError" "Resource not found" (VStr "not_found")
            (Some 404) VUndefined None None)
  \/ exists s,
       ToString (api_message response body) = Some s
       /\ ((status = 401
            /\ e = VeilMailError.mk "AuthenticationError" s (VStr "authentication_error")
                     (Some 401) VUndefined None None)
           \/ (status = 403
               /\ e = VeilMailError.mk "ForbiddenError" s (VStr "forbidden")
                        (Some 403) VUndefined None None)
           \/ (status = 422
               /\ e = VeilMailError.mk "PiiDetectedError" s (VStr "pii_detected")
                        (Some 422)
                        (VObj {[ "piiTypes" := opt_get (api_details body) "piiTypes" ]})
                        (Some (opt_get (api_details body) "piiTypes")) None)
           \/ (status = 422
               /\ e = VeilMailError.mk "ValidationError" s (VStr "validation_error")
                        (Some 400) (api_details body) None None)
           \/ (status = 429
               /\ exists retryAfter,
                    retryAfter
                    = match Headers_get (Response.headers response) "Retry-After" with
                      | Some v => if nonempty v then Some (parseInt v) else None
                      | None => None
                      end
                    /\ e = VeilMailError.mk "RateLimitError" s (VStr "rate_limit")
                             (Some 429)
                             match retryAfter with
                             | Some n => if number_truthy n
                                         then VObj {[ "retryAfter" := VNum n ]}
                                         else VUndefined
                             | None => VUndefined
                             end
                             None retryAfter)
           \/ (500 <= status
               /\ e = VeilMailError.mk "ServerError" s (VStr "server_error")
                        (Some status) VUndefined None None)
           \/ (status < 500 /\ ~ In status [401; 403; 404; 422; 429]
               /\ e = VeilMailError.mk "VeilMailError" s (api_code body)
                        (Some status) (api_details body) None None)).
Proof.
  intros He. simpl.
  destruct (Z.eq_dec (Response.status response) 404) as [H404 | Hn404].
  - rewrite (parseApiError_404 _ _ H404) in He. injection He as <-. left. auto.
  - right.
    destruct (ToString (api_message response body)) as [s |] eqn:Hs;
      [| rewrite (parseApiError_fails _ _ Hn404 Hs) in He; discriminate He].
    exists s. split; [reflexivity |]. revert He.
    destruct (status_cases (Response.status response))
      as [H | [H | [H | [H | [H | [H | [Hlt Hnot]]]]]]].
    + rewrite (parseApiError_401 _ _ H). construct Hs. intros [= <-]. auto.
    + rewrite (parseApiError_403 _ _ H). construct Hs. intros [= <-]. auto.
    + contradiction.
    + rewrite (parseApiError_422 _ _ H).
      destruct (is_string (api_code body) "pii_detected"
                && truthy (opt_get (api_details body) "piiTypes"));
        construct Hs; intros [= <-]; auto 10.
    + rewrite (parseApiError_429 _ _ H). construct Hs. intros [= <-].
      do 4 right. left. split; [exact H |]. eexists. split; reflexivity.
    + rewrite (parseApiError_5xx _ _ H). construct Hs. intros [= <-]. auto 10.
    + rewrite (parseApiError_other _ _ Hlt Hnot).
      rewrite (VeilMailError_new_converts _ _ _ _ _ _ Hs). intros [= <-].
      auto 10.
Qed.

Ltac by_branch He :=
  apply parseApiError_inv in He; simpl in He;
  destruct He as [[Hst ->] | (s & Hs & [[Hst ->] | [[Hst ->] | [[Hst ->] | [[Hst ->]
    | [[Hst (retryAfter & Hretry & ->)] | [[Hst ->] | (Hlt & Hnot & ->)]]]]]])].

(** X1.  Every error [parseApiError] returns, except the validation
    error, carries the HTTP status of the response in its status field. *)
Theorem parseApiError_keeps_status response body e :
  parseApiError response body = Ok e ->
  VeilMailError.name e <> "ValidationError" ->
  VeilMailError.status e = Some (Response.status response).
Proof.
  intros He Hname. by_branch He; simpl in *; try congruence.
Qed.

(** X2.  The errors of the statuses 401, 403, 404 and of 500 and above
    take nothing but the message from the body: their code is the one of
    their class and they have no details, whatever code and details the
    body carries. *)
Theorem parseApiError_fixed_code response body e :
  parseApiError response body = Ok e ->
  In (Response.status response) [401; 403; 404] \/ 500 <= Response.status response ->
  let status := Response.status response in
  VeilMailError.code e
  = VStr (if status =? 401 then "authentication_error"
          else if status =? 403 then "forbidden"
          else if status =? 404 then "not_found"
          else "server_error")
  /\ VeilMailError.details e = VUndefined
  /\ VeilMailError.piiTypes e = None
  /\ VeilMailError.retryAfter e = None.
Proof.
  intros He Hst'. simpl in Hst'.
  assert (Hcases : Response.status response = 401 \/ Response.status response = 403
                   \/ Response.status response = 404
                   \/ 500 <= Response.status response) by (drop_host; intuition).
  clear Hst'.
  by_branch He; simpl;
    try (rewrite Hst; simpl; auto; fail);
    try (exfalso; lia).
  repeat match goal with
         | |- context [Response.status response =? ?c] =>
             destruct (Z.eqb_spec (Response.status response) c); [exfalso; lia |]
         end.
  auto.
Qed.

(** X3.  A rate-limit error has details exactly when its retryAfter is a
    number other than zero and NaN, and then the details hold that
    number.  A Retry-After header that starts with neither white space, a
    sign nor a digit (an HTTP date, for one) gives the retryAfter NaN,
    not an absent one; an empty header counts as absent. *)
Theorem RateLimitError_details response body e :
  Response.status response = 429 ->
  parseApiError response body = Ok e ->
  VeilMailError.details e
  = match VeilMailError.retryAfter e with
    | Some n => if number_truthy n then VObj {[ "retryAfter" := VNum n ]} else VUndefined
    | None => VUndefined
    end
  /\ (forall c rest,
        Headers_get (Response.headers response) "Retry-After" = Some (String c rest) ->
        is_white_space c = false -> is_digit c = false -> c <> "-"%char -> c <> "+"%char ->
        VeilMailError.retryAfter e = Some NaN /\ VeilMailError.details e = VUndefined)
  /\ (Headers_get (Response.headers response) "Retry-After" = Some "" ->
      VeilMailError.retryAfter e = None).
Proof.
  intros H429 He. by_branch He; try (exfalso; lia);
    try (exfalso; apply Hnot; rewrite H429; simpl; host_tauto).
  simpl. split; [reflexivity |]. split.
  - intros c rest Hh Hws Hd Hminus Hplus. rewrite Hh in Hretry. simpl in Hretry.
    assert (Hnan : parseInt (String c rest) = NaN).
    { unfold parseInt. simpl. rewrite Hws.
      destruct (Ascii.eqb_spec c "-"); [contradiction |].
      destruct (Ascii.eqb_spec c "+"); [contradiction |].
      simpl. rewrite Hd. reflexivity. }
    rewrite Hnan in Hretry. subst retryAfter. split; reflexivity.
  - intros Hh. rewrite Hh in Hretry. exact Hretry.
Qed.

(** ** More on the transport *)

(** The [catch] block never returns. *)
Lemma handle_error_throws {A} client error :
  exists t, @handle_error A client error = Throw t.
Proof.
  unfold handle_error. destruct (as_Error error) as [[n m] |]; [| eauto].
  destruct (String.eqb n "AbortError"); [simpl; eauto |].
  destruct (String.eqb n "TypeError" && includes m "fetch"); simpl; eauto.
Qed.

Lemma not_ok_not_204 response :
  Response.ok response = false -> Response.status response <> 204.
Proof. intros Hok H. unfold Response.ok in Hok. rewrite H in Hok. discriminate Hok. Qed.

(** X4.  [request] never resolves on a response outside 200..299: it
    throws, and when the body can be read and classified, what it throws
    is the error [parseApiError] returns, untouched by the [catch]
    block. *)
Theorem request_rejects_failure client method path options url response :
  request_url client path (RequestOptions.query options) = Some url ->
  fetch url (request_init client method options) = Responded response ->
  Response.ok response = false ->
  (exists t, request client method path options = Throw t)
  /\ (forall body e,
        read_body response = Ok body ->
        parseApiError response body = Ok e ->
        request client method path options = Throw (ThrownSDK e)).
Proof.
  intros Hurl Hfetch Hok. split.
  - unfold request. rewrite Hurl, Hfetch. simpl.
    destruct (Z.eqb_spec (Response.status response) 204) as [H | _];
      [exact (False_ind _ (not_ok_not_204 _ Hok H)) |].
    destruct (read_body response) as [body | t]; simpl;
      [| apply handle_error_throws].
    rewrite Hok. simpl.
    destruct (parseApiError response body); simpl; apply handle_error_throws.
  - intros body e Hbody He.
    exact (request_throws_classified _ _ _ _ _ _ _ Hurl Hfetch Hok body Hbody He).
Qed.

(** X5.  An error response whose content type is not JSON (the page of a
    proxy, for one) is classified by its status alone: the text of the
    body is dropped, the message is the status text unless the status is
    404, and outside the status table the code is unknown_error and there
    are no details. *)
Theorem request_text_error client method path options url response :
  request_url client path (RequestOptions.query options) = Some url ->
  fetch url (request_init client method options) = Responded response ->
  Response.ok response = false ->
  indicates_json (Headers_get (Response.headers response) "content-type") = false ->
  exists e,
    request client method path options = Throw (ThrownSDK e)
    /\ (Response.status response <> 404 ->
        VeilMailError.message e = Response.statusText response)
    /\ (Response.status response < 500 ->
        ~ In (Response.status response) [401; 403; 404; 422; 429] ->
        e = VeilMailError.mk "VeilMailError" (Response.statusText response)
              (VStr "unknown_error") (Some (Response.status response)) VUndefined
              None None).
Proof.
  intros Hurl Hfetch Hok Hct.
  assert (Hbody : read_body response = Ok (VStr (Response.text response)))
    by (unfold read_body; rewrite Hct; reflexivity).
  destruct (parseApiError_returns response (VStr (Response.text response))
              (Response.statusText response) eq_refl) as (e & He & Hmsg).
  exists e. split; [| split].
  - exact (request_throws_classified _ _ _ _ _ _ _ Hurl Hfetch Hok _ Hbody He).
  - exact Hmsg.
  - intros Hlt Hnot. rewrite (parseApiError_other _ _ Hlt Hnot) in He.
    injection He as <-. reflexivity.
Qed.

(** X6.  When [fetch] rejects with a [TypeError], [request] throws a
    [NetworkError] with the message prefixed by Network error: if the
    message of the [TypeError] includes the word fetch, and the
    [TypeError] itself if it does not. *)
Theorem request_network_error client method path options url m :
  request_url client path (RequestOptions.query options) = Some url ->
  fetch url (request_init client method options) = Failed (ThrownError "TypeError" m) ->
  request client method path options
  = if includes m "fetch"
    then Throw (ThrownSDK (VeilMailError.mk "NetworkError" ("Network error: " +:+ m)
                             (VStr "network_error") None VUndefined None None))
    else Throw (ThrownError "TypeError" m).
Proof.
  intros Hurl Hfetch. unfold request. rewrite Hurl, Hfetch. simpl.
  unfold handle_error. simpl. destruct (includes m "fetch"); reflexivity.
Qed.

(** X7.  Whatever else [fetch] rejects with (a value that is no [Error],
    or an [Error] named neither AbortError nor TypeError) leaves
    [request] as it is. *)
Theorem request_rethrows client method path options url t :
  request_url client path (RequestOptions.query options) = Some url ->
  fetch url (request_init client method options) = Failed t ->
  match as_Error t with
  | Some (n, _) => n <> "AbortError" /\ n <> "TypeError"
  | None => True
  end ->
  request client method path options = Throw t.
Proof.
  intros Hurl Hfetch Ht. unfold request. rewrite Hurl, Hfetch. simpl.
  unfold handle_error. destruct (as_Error t) as [[n m] |]; [| reflexivity].
  destruct Ht as [Habort Htype].
  destruct (String.eqb_spec n "AbortError"); [contradiction |].
  destruct (String.eqb_spec n "TypeError"); [contradiction |]. reflexivity.
Qed.

(** X8.  A response announced as JSON whose text does not parse makes
    [request] throw the [SyntaxError] of the parser, whether the status is
    a success or not: an error status is not classified then.  Only a 204
    is spared, its body is not read. *)
Theorem request_malformed_json client method path options url response m :
  request_url client path (RequestOptions.query options) = Some url ->
  fetch url (request_init client method options) = Responded response ->
  Response.status response <> 204 ->
  indicates_json (Headers_get (Response.headers response) "content-type") = true ->
  JSON_parse (Response.text response) = inr m ->
  request client method path options = Throw (ThrownError "SyntaxError" m).
Proof.
  intros Hurl Hfetch H204 Hct Hparse. unfold request. rewrite Hurl, Hfetch. simpl.
  destruct (Z.eqb_spec (Response.status response) 204); [contradiction |].
  unfold read_body. rewrite Hct, Hparse. reflexivity.
Qed.

(** X9.  A successful response other than a 204 whose content type
    includes application/json resolves to the parsed body, for every verb
    and also when the body parses to [null] or to a scalar. *)
Theorem request_json_body client method path options url response v :
  request_url client path (RequestOptions.query options) = Some url ->
  fetch url (request_init client method options) = Responded response ->
  Response.status response <> 204 ->
  Response.ok response = true ->
  indicates_json (Headers_get (Response.headers response) "content-type") = true ->
  JSON_parse (Response.text response) = inl v ->
  request client method path options = Ok v.
Proof.
  intros Hurl Hfetch H204 Hok Hct Hparse.
  apply (request_answers_json _ _ _ _ _ _ _ Hurl Hfetch).
  repeat split; assumption.
Qed.

(** X10.  The headers sent are the three defaults overridden by the
    headers of the caller: a header of the caller is sent as given, every
    other name has its default.  The verb helpers pass no headers, so
    their requests carry the key as a bearer token and the JSON content
    type. *)
Theorem request_headers_override client method options k :
  let sent := RequestInit.headers (request_init client method options) in
  sent !! k
  = match RequestOptions.headers options !! k with
    | Some v => Some v
    | None =>
        if String.eqb k "Authorization"
        then Some ("Bearer " +:+ HttpClient.apiKey client)
        else if String.eqb k "Content-Type" then Some "application/json"
        else if String.eqb k "User-Agent" then Some "@resonia/veilmail-sdk/0.2.0"
        else None
    end.
Proof.
  simpl. unfold request_headers.
  destruct (RequestOptions.headers options !! k) as [v |] eqn:Hk.
  - apply lookup_union_Some_l, Hk.
  - rewrite (lookup_union_r _ _ _ Hk).
    destruct (String.eqb_spec k "Authorization") as [-> | H1];
      [reflexivity |].
    rewrite lookup_insert_ne by congruence.
    destruct (String.eqb_spec k "Content-Type") as [-> | H2];
      [reflexivity |].
    rewrite lookup_insert_ne by congruence.
    destruct (String.eqb_spec k "User-Agent") as [-> | H3];
      [reflexivity |].
    apply lookup_singleton_ne. congruence.
Qed.

(** X11.  A body that is falsy ([0], [false], the empty string, [null])
    is not sent: the request is the one made without a body. *)
Theorem falsy_body_is_not_sent client method path body query headers :
  truthy body = false ->
  RequestInit.body (request_init client method (RequestOptions.mk body query headers))
  = None
  /\ request client method path (RequestOptions.mk body query headers)
     = request client method path (RequestOptions.mk VUndefined query headers)
  /\ HttpClient_post client path body = HttpClient_post client path VUndefined
  /\ HttpClient_patch client path body = HttpClient_patch client path VUndefined
  /\ HttpClient_put client path body = HttpClient_put client path VUndefined.
Proof.
  intros Hbody.
  unfold HttpClient_post, HttpClient_patch, HttpClient_put, request, request_init.
  simpl. rewrite Hbody. repeat split; reflexivity.
Qed.

Lemma strip_trailing_slash_slash s : strip_trailing_slash (s +:+ "/") = s.
Proof.
  induction s as [| c s IH]; [reflexivity |].
  rewrite append_cons. simpl. rewrite IH.
  destruct s; reflexivity.
Qed.

Lemma strip_trailing_slash_other s c :
  c <> "/"%char -> strip_trailing_slash (s +:+ String c "") = s +:+ String c "".
Proof.
  intros Hc. induction s as [| d s IH].
  - simpl. destruct (Ascii.eqb_spec c "/"); [contradiction | reflexivity].
  - rewrite append_cons. simpl. rewrite IH.
    destruct s; reflexivity.
Qed.

Lemma HttpClient_new_valid key base timeout :
  String.prefix "veil_live_" key || String.prefix "veil_test_" key = true ->
  HttpClient_new (VeilMailConfig.mk (Some key) base timeout)
  = Ok (HttpClient.mk key
          (match base with
           | Some b => strip_trailing_slash b
           | None => DEFAULT_BASE_URL
           end)
          (default DEFAULT_TIMEOUT timeout)).
Proof.
  intros Hkey. unfold HttpClient_new, startsWith. simpl VeilMailConfig.apiKey.
  destruct key as [| c key]; [discriminate Hkey |].
  change (nonempty (String c key)) with true. cbn [negb].
  apply orb_true_iff in Hkey. destruct Hkey as [-> | ->]; simpl;
    [| rewrite andb_false_r]; reflexivity.
Qed.

(** X12.  With a valid key, the constructor drops one trailing slash of
    the base URL and no more, keeps a base URL that does not end in a
    slash (the empty one too, which is not replaced by the default), and
    takes the default base URL only when none is given; the timeout is
    the given one, zero included, or else the default. *)
Theorem HttpClient_new_normalises key timeout :
  String.prefix "veil_live_" key || String.prefix "veil_test_" key = true ->
  let built base := HttpClient_new (VeilMailConfig.mk (Some key) base timeout) in
  let client url := Ok (HttpClient.mk key url (default DEFAULT_TIMEOUT timeout)) in
  (forall b, built (Some (b +:+ "/")) = client b)
  /\ (forall b c, c <> "/"%char ->
                  built (Some (b +:+ String c "")) = client (b +:+ String c ""))
  /\ built (Some "") = client ""
  /\ built None = client "https://api.veilmail.xyz".
Proof.
  intros Hkey. simpl. repeat split; intros;
    rewrite (HttpClient_new_valid _ _ _ Hkey);
    rewrite ?strip_trailing_slash_slash, ?strip_trailing_slash_other by assumption;
    reflexivity.
Qed.

(** X13.  The constructor does not look at the base URL: it succeeds for
    every text.  A base URL the parser rejects fails later, at each
    request, with the [TypeError] of the URL constructor. *)
Theorem invalid_base_url_fails_at_request key base timeout :
  String.prefix "veil_live_" key || String.prefix "veil_test_" key = true ->
  exists client,
    HttpClient_new (VeilMailConfig.mk (Some key) (Some base) timeout) = Ok client
    /\ HttpClient.baseUrl client = strip_trailing_slash base
    /\ forall method path options,
         URL_new path (strip_trailing_slash base) = None ->
         request client method path options
         = Throw (ThrownError "TypeError" "Invalid URL").
Proof.
  intros Hkey. eexists. split; [exact (HttpClient_new_valid _ _ _ Hkey) |].
  split; [reflexivity |].
  intros method path options Hurl. unfold request, request_url. simpl.
  rewrite Hurl. reflexivity.
Qed.

(** ** More on the request URL *)


(** X15.  [Emails.list] asks for the path /v1/emails on the site of the
    base URL, followed by the filters that are given, in the order limit,
    cursor, status, tag, after, before; without parameters, or with none
    of the filters given, the URL has no query.  The request is a GET
    without a body, and its JSON answer is returned as it is. *)
Theorem Emails_list_url http site params :
  plain_site (HttpClient.baseUrl http) = Some site ->
  let pairs :=
    (present "limit" (Number_toString <$> (params ≫= ListEmailsParams.limit))
     ++ present "cursor" (params ≫= ListEmailsParams.cursor)
     ++ present "status" (params ≫= ListEmailsParams.status)
     ++ present "tag" (params ≫= ListEmailsParams.tag)
     ++ present "after" (params ≫= ListEmailsParams.after)
     ++ present "before" (params ≫= ListEmailsParams.before))%list in
  let url := site +:+ "/v1/emails"
             +:+ match pairs with
                 | [] => ""
                 | given => "?" +:+ urlencoded_serialize given
                 end in
  request_url http "/v1/emails" (Some (Emails_list_query params)) = Some url
  /\ (forall response v,
        fetch url (RequestInit.mk "GET" (request_headers http ∅) None (timer_signal http))
        = Responded response ->
        answers_json response v ->
        Emails_list http params = Ok v).
Proof.
  intros Hsite pairs url.
  assert (Hpath : plain_path "/v1/emails" = true) by reflexivity.
  assert (Hnodup : List.NoDup (List.map fst (Emails_list_query params))).
  { simpl. repeat (apply List.NoDup_cons; [simpl; drop_host; intuition discriminate |]).
    apply List.NoDup_nil. }
  destruct (request_url_entries _ _ _ _ Hsite Hpath Hnodup) as [_ Hurl].
  assert (Hpairs : defined_params (Emails_list_query params)
                   = (present "limit"
                        (Number_toString <$> (params ≫= ListEmailsParams.limit))
                      ++ present "cursor" (params ≫= ListEmailsParams.cursor)
                      ++ present "status" (params ≫= ListEmailsParams.status)
                      ++ present "tag" (params ≫= ListEmailsParams.tag)
                      ++ present "after" (params ≫= ListEmailsParams.after)
                      ++ present "before" (params ≫= ListEmailsParams.before))%list).
  { destruct params as [[[l |] [c |] [s |] [t |] [a |] [b |]] |]; reflexivity. }
  fold pairs in Hpairs. rewrite Hpairs in Hurl.
  assert (Hurl' : request_url http "/v1/emails" (Some (Emails_list_query params))
                  = Some url)
    by (rewrite Hurl; unfold url; destruct pairs; reflexivity).
  split; [exact Hurl' |].
  intros response v Hfetch Hjson.
  exact (request_answers_json _ "GET" _
           (RequestOptions.mk VUndefined (Some (Emails_list_query params)) ∅)
           _ _ _ Hurl' Hfetch Hjson).
Qed.

(** The URLs of the calls on one template or one email. *)
Lemma resource_request_urls http site id :
  plain_site (HttpClient.baseUrl http) = Some site ->
  safe_id id = true ->
  request_url http ("/v1/templates/" +:+ id) None
  = Some (site +:+ "/v1/templates/" +:+ id)
  /\ request_url http ("/v1/emails/" +:+ id) None
     = Some (site +:+ "/v1/emails/" +:+ id)
  /\ request_url http ("/v1/emails/" +:+ id +:+ "/cancel") None
     = Some (site +:+ "/v1/emails/" +:+ id +:+ "/cancel").
Proof.
  intros Hsite Hid.
  assert (Ht : plain_path ("/v1/templates/" +:+ id) = true)
    by (apply (plain_path_id "v" "1/templates" id); [reflexivity | exact Hid]).
  assert (He : plain_path ("/v1/emails/" +:+ id) = true)
    by (apply (plain_path_id "v" "1/emails" id); [reflexivity | exact Hid]).
  assert (Hc : plain_path ("/v1/emails/" +:+ id +:+ "/cancel") = true).
  { destruct (safe_id_segment id Hid) as (Hchars & Hsplit & Hdots).
    apply (plain_path_join "v" "1/emails" (id +:+ "/cancel")); [reflexivity | |].
    - rewrite forall_chars_append, Hchars. reflexivity.
    - rewrite split_on_append, Hsplit. simpl. rewrite Hdots. reflexivity. }
  split; [| split].
  - exact (proj1 (request_url_entries _ _ _ [] Hsite Ht (List.NoDup_nil _))).
  - exact (proj1 (request_url_entries _ _ _ [] Hsite He (List.NoDup_nil _))).
  - exact (proj1 (request_url_entries _ _ _ [] Hsite Hc (List.NoDup_nil _))).
Qed.

(** X16.  For an identifier made of letters, digits, underscores and
    hyphens, on a plain base URL, [Templates.get] and [Emails.get] are a
    GET and [Emails.cancel] a POST, all three without a body, of the site
    followed by the path of the resource, the identifier as it is and,
    for a cancellation, the segment cancel.  The JSON answer of the two
    email calls is returned as it is; that of the template call is
    unwrapped from its member data and mapped. *)
Theorem resource_calls http site id response v :
  plain_site (HttpClient.baseUrl http) = Some site ->
  safe_id id = true ->
  answers_json response v ->
  let answered method path :=
    fetch (site +:+ path)
      (RequestInit.mk method (request_headers http ∅) None (timer_signal http))
    = Responded response in
  (answered "GET" ("/v1/templates/" +:+ id) ->
   Templates_get http id = (let* data := member v "data" in mapTemplate data))
  /\ (answered "GET" ("/v1/emails/" +:+ id) -> Emails_get http id = Ok v)
  /\ (answered "POST" ("/v1/emails/" +:+ id +:+ "/cancel") ->
      Emails_cancel http id = Ok v).
Proof.
  intros Hsite Hid Hjson answered. subst answered.
  destruct (resource_request_urls _ _ _ Hsite Hid) as (Ht & He & Hc).
  split; [| split]; intros Hfetch.
  - unfold Templates_get, HttpClient_get.
    rewrite (request_answers_json _ "GET" _ (RequestOptions.mk VUndefined None ∅)
               _ _ _ Ht Hfetch Hjson).
    reflexivity.
  - exact (request_answers_json _ "GET" _ (RequestOptions.mk VUndefined None ∅)
             _ _ _ He Hfetch Hjson).
  - exact (request_answers_json _ "POST" _ (RequestOptions.mk VUndefined None ∅)
             _ _ _ Hc Hfetch Hjson).
Qed.

(** X17.  Asking for an email that does not exist, when the server
    answers 404 with a body that can be read, throws a [NotFoundError]
    whose message is Resource not found: it names neither the kind of
    resource nor the identifier, and nothing of the body is kept. *)
Theorem Emails_get_missing http site id response :
  plain_site (HttpClient.baseUrl http) = Some site ->
  safe_id id = true ->
  fetch (site +:+ "/v1/emails/" +:+ id)
    (RequestInit.mk "GET" (request_headers http ∅) None (timer_signal http))
  = Responded response ->
  Response.status response = 404 ->
  indicates_json (Headers_get (Response.headers response) "content-type") = false
  \/ (exists v, JSON_parse (Response.text response) = inl v) ->
  Emails_get http id
  = Throw (ThrownSDK (VeilMailError.mk "NotFoundError" "Resource not found"
                        (VStr "not_found") (Some 404) VUndefined None None)).
Proof.
  intros Hsite Hid Hfetch H404 Hread.
  destruct (resource_request_urls _ _ _ Hsite Hid) as (_ & He & _).
  assert (Hok : Response.ok response = false)
    by (unfold Response.ok; rewrite H404; reflexivity).
  assert (Hbody : exists body, read_body response = Ok body).
  { unfold read_body. destruct Hread as [-> | [v Hv]]; [eauto |].
    rewrite Hv. destruct (indicates_json _); eauto. }
  destruct Hbody as [body Hbody].
  exact (request_throws_classified _ "GET" _ (RequestOptions.mk VUndefined None ∅)
           _ _ _ He Hfetch Hok body Hbody (parseApiError_404 _ _ H404)).
Qed.

Lemma includes_append a p b : includes (a +:+ p +:+ b) p = true.
Proof.
  induction a as [| c a IH].
  - rewrite append_empty_l. pose proof (prefix_append p b) as Hp.
    destruct (p +:+ b); cbn [includes]; rewrite Hp; reflexivity.
  - rewrite append_cons. simpl. rewrite IH. apply orb_true_r.
Qed.

(** X18.  The body is parsed as JSON as soon as the content type
    contains the text application/json, whatever stands before or after
    it (a charset parameter, for one); a parse failure is then the
    [SyntaxError] of the parser. *)
Theorem read_body_json_content_type response before after :
  Headers_get (Response.headers response) "content-type"
  = Some (before +:+ "application/json" +:+ after) ->
  read_body response
  = match JSON_parse (Response.text response) with
    | inl v => Ok v
    | inr m => Throw (ThrownError "SyntaxError" m)
    end.
Proof.
  intros Hct. unfold read_body. rewrite Hct. simpl indicates_json.
  rewrite includes_append. reflexivity.
Qed.

(** X19.  [Templates.delete] is a DELETE without a body.  On a
    successful response it resolves to [undefined] whenever the body can
    be read (a 204, a body that is not announced as JSON, a JSON body
    that parses), whatever the body holds; a successful response
    announced as JSON whose text does not parse makes it throw the
    [SyntaxError] of the parser. *)
Theorem Templates_delete_result http id url response :
  request_url http ("/v1/templates/" +:+ id) None = Some url ->
  fetch url (RequestInit.mk "DELETE" (request_headers http ∅) None (timer_signal http))
  = Responded response ->
  Response.ok response = true ->
  Templates_delete http id
  = if Response.status response =? 204 then Ok VUndefined
    else if indicates_json (Headers_get (Response.headers response) "content-type")
    then match JSON_parse (Response.text response) with
         | inl _ => Ok VUndefined
         | inr m => Throw (ThrownError "SyntaxError" m)
         end
    else Ok VUndefined.
Proof.
  intros Hurl Hfetch Hok.
  unfold Templates_delete, HttpClient_delete, request. simpl RequestOptions.query.
  rewrite Hurl.
  change (request_init http "DELETE" RequestOptions.empty)
    with (RequestInit.mk "DELETE" (request_headers http ∅) None (timer_signal http)).
  rewrite Hfetch. simpl.
  destruct (Response.status response =? 204); [reflexivity |].
  unfold read_body.
  destruct (indicates_json _).
  - destruct (JSON_parse (Response.text response)); simpl; [| reflexivity].
    rewrite Hok. reflexivity.
  - simpl. rewrite Hok. reflexivity.
Qed.

(** ** More on the templates facade *)

Lemma request_no_content client method path options url response :
  request_url client path (RequestOptions.query options) = Some url ->
  fetch url (request_init client method options) = Responded response ->
  Response.status response = 204 ->
  request client method path options = Ok VUndefined.
Proof.
  intros Hurl Hfetch H. unfold request. rewrite Hurl, Hfetch. simpl.
  rewrite H. reflexivity.
Qed.

Lemma request_success client method path options url response body :
  request_url client path (RequestOptions.query options) = Some url ->
  fetch url (request_init client method options) = Responded response ->
  Response.status response <> 204 ->
  Response.ok response = true ->
  read_body response = Ok body ->
  request client method path options = Ok body.
Proof.
  intros Hurl Hfetch H204 Hok Hbody. unfold request. rewrite Hurl, Hfetch. simpl.
  destruct (Z.eqb_spec (Response.status response) 204); [contradiction |].
  rewrite Hbody. simpl. rewrite Hok. reflexivity.
Qed.

(** Unwrapping the envelope of an answer that has no template in it. *)
Lemma unwrap_without_data (response : value) :
  match response with
  | VUndefined | VNull => True
  | _ => opt_get response "data" = VUndefined \/ opt_get response "data" = VNull
  end ->
  exists m,
    (let* data := member response "data" in mapTemplate data)
    = Throw (ThrownError "TypeError" m).
Proof.
  destruct response; simpl; try (intros _; eauto; fail);
    intros [-> | ->]; simpl; eauto.
Qed.

(** X20.  The bodies that create and update send never have a member
    named variables; every member of the parameters other than variables
    and variablesSchema is sent as given; a list of variables is sent as
    variablesSchema by both; and without variables both send the
    parameters as they are.  They differ on [null] only: update sends it
    as variablesSchema, create leaves it out. *)
Theorem template_bodies params :
  (create_body params !! "variables" = None
   /\ update_body params !! "variables" = None)
  /\ (forall k, k <> "variables" -> k <> "variablesSchema" ->
                create_body params !! k = params !! k
                /\ update_body params !! k = params !! k)
  /\ (forall l, params !! "variables" = Some (VArr l) ->
                create_body params !! "variablesSchema" = Some (VArr l)
                /\ update_body params !! "variablesSchema" = Some (VArr l))
  /\ (params !! "variables" = None ->
      create_body params = params /\ update_body params = params)
  /\ (params !! "variables" = Some VNull ->
      create_body params = delete "variables" params
      /\ update_body params !! "variablesSchema" = Some VNull).
Proof.
  unfold create_body, update_body. repeat split.
  - destruct (truthy _); [rewrite lookup_insert_ne by discriminate |];
      apply lookup_delete_eq.
  - destruct (default VUndefined (params !! "variables"));
      rewrite ?lookup_insert_ne by discriminate; apply lookup_delete_eq.
  - destruct (truthy _); rewrite ?lookup_insert_ne by congruence;
      apply lookup_delete_ne; congruence.
  - destruct (default VUndefined (params !! "variables"));
      rewrite ?lookup_insert_ne by congruence; apply lookup_delete_ne; congruence.
  - rewrite H. simpl. apply lookup_insert_eq.
  - rewrite H. simpl. apply lookup_insert_eq.
  - rewrite H. simpl. apply delete_id, H.
  - rewrite H. simpl. apply delete_id, H.
  - rewrite H. reflexivity.
  - rewrite H. simpl. apply lookup_insert_eq.
Qed.

(** X21.  [mapTemplate] turns every object into one that has no member
    variablesSchema and has a truthy member variables: the value of
    variablesSchema when that is truthy, the empty list otherwise.  A
    member variables of the data itself is overwritten, and every other
    member is kept. *)
Theorem mapTemplate_shape fields :
  exists template,
    mapTemplate (VObj fields) = Ok (VObj template)
    /\ template !! "variablesSchema" = None
    /\ (exists variables,
          template !! "variables" = Some variables
          /\ truthy variables = true
          /\ variables
             = match fields !! "variablesSchema" with
               | Some schema => if truthy schema then schema else VArr []
               | None => VArr []
               end)
    /\ (forall k, k <> "variables" -> k <> "variablesSchema" ->
                  template !! k = fields !! k).
Proof.
  unfold mapTemplate. simpl. eexists. split; [reflexivity |]. split; [| split].
  - rewrite lookup_insert_ne by discriminate. apply lookup_delete_eq.
  - eexists. split; [apply lookup_insert_eq |].
    destruct (fields !! "variablesSchema") as [schema |]; simpl;
      [destruct (truthy schema) eqn:Hs |]; auto.
  - intros k Hk Hk'. rewrite lookup_insert_ne by congruence.
    apply lookup_delete_ne. congruence.
Qed.

(** X22.  [Templates.update] patches the template at its path with the
    body of update.  From a JSON answer whose member data is an object it
    returns that object mapped by [mapTemplate]; when a successful answer
    has no such member (a 204, a body that is not JSON, a JSON body whose
    data is missing or [null]) it throws a [TypeError]. *)
Theorem Templates_update_result http id params url response :
  request_url http ("/v1/templates/" +:+ id) None = Some url ->
  fetch url (RequestInit.mk "PATCH" (request_headers http ∅)
               (Some (JSON_stringify (VObj (update_body params))))
               (timer_signal http))
  = Responded response ->
  Response.ok response = true ->
  (forall v stored,
     answers_json response v ->
     opt_get v "data" = VObj stored ->
     Templates_update http id params = mapTemplate (VObj stored))
  /\ (Response.status response = 204
      \/ indicates_json (Headers_get (Response.headers response) "content-type") = false
      \/ (exists v, JSON_parse (Response.text response) = inl v
                    /\ (v = VNull \/ opt_get v "data" = VUndefined
                        \/ opt_get v "data" = VNull)) ->
      exists m, Templates_update http id params = Throw (ThrownError "TypeError" m)).
Proof.
  intros Hurl Hfetch Hok. unfold Templates_update, HttpClient_patch.
  set (options := RequestOptions.mk (VObj (update_body params)) None ∅).
  assert (Hfetch' : fetch url (request_init http "PATCH" options) = Responded response)
    by exact Hfetch.
  split.
  - intros v stored Hjson Hdata.
    rewrite (request_answers_json _ _ _ options _ _ _ Hurl Hfetch' Hjson). simpl.
    destruct v; simpl in Hdata; try discriminate Hdata.
    simpl. rewrite Hdata. reflexivity.
  - intros Hnone.
    destruct (Z.eq_dec (Response.status response) 204) as [H204 | H204].
    { rewrite (request_no_content _ _ _ options _ _ Hurl Hfetch' H204).
      apply unwrap_without_data. exact I. }
    destruct (indicates_json
                (Headers_get (Response.headers response) "content-type")) eqn:Hct.
    + destruct Hnone as [H | [H | (v & Hparse & Hv)]];
        [contradiction | discriminate H |].
      assert (Hbody : read_body response = Ok v)
        by (unfold read_body; rewrite Hct, Hparse; reflexivity).
      rewrite (request_success _ _ _ options _ _ _ Hurl Hfetch' H204 Hok Hbody).
      apply unwrap_without_data.
      destruct Hv as [-> | Hv]; [exact I |].
      destruct v; simpl; auto.
    + assert (Hbody : read_body response = Ok (VStr (Response.text response)))
        by (unfold read_body; rewrite Hct; reflexivity).
      rewrite (request_success _ _ _ options _ _ _ Hurl Hfetch' H204 Hok Hbody).
      apply unwrap_without_data. simpl. auto.
Qed.

End SDK.

(** * The properties at sample inputs *)

(** C1 as stated fails: a 401 whose body carries a message that has no
    string form makes [parseApiError] throw instead of returning an
    authentication error. *)
Lemma parseApiError_status_table_counterexample :
  parseApiError sample_Number_toString (Response.mk 401 "Unauthorized" [] "")
    unprintable_body
  = Throw (ThrownError "TypeError" "Cannot convert object to primitive value")
  /\ ~ exists e,
         parseApiError sample_Number_toString
           (Response.mk 401 "Unauthorized" [] "") unprintable_body = Ok e.
Proof.
  split; [vm_compute; reflexivity |].
  intros [e He]. vm_compute in He. discriminate He.
Qed.

Lemma parseApiError_status_table_witness :
  exists e,
    parseApiError sample_Number_toString (Response.mk 401 "Unauthorized" [] "") VNull
    = Ok e
    /\ VeilMailError.name e = "AuthenticationError".
Proof.
  destruct (parseApiError_status_table sample_Number_toString
              (Response.mk 401 "Unauthorized" [] "") VNull) as [e [He Htable]].
  - right. exists "Unauthorized". reflexivity.
  - exists e. split; [exact He |]. apply Htable. reflexivity.
Defined.

(** C4 as stated fails: with the code pii_detected and a piiTypes detail
    that is a string, not a list, the 422 is not a validation error. *)
Lemma parseApiError_unprocessable_counterexample :
  (forall l, opt_get (api_details (pii_body (VStr "SSN"))) "piiTypes" <> VArr l)
  /\ exists e,
       parseApiError sample_Number_toString (Response.mk 422 "" [] "")
         (pii_body (VStr "SSN")) = Ok e
       /\ VeilMailError.name e = "PiiDetectedError"
       /\ VeilMailError.name e <> "ValidationError".
Proof.
  split.
  - intros l. vm_compute. discriminate.
  - eexists. split; [vm_compute; reflexivity |]. split; [reflexivity | discriminate].
Qed.

Lemma parseApiError_unprocessable_witness :
  exists e,
    parseApiError sample_Number_toString (Response.mk 422 "" [] "")
      (pii_body (VArr [VStr "SSN"])) = Ok e
    /\ VeilMailError.name e = "PiiDetectedError"
    /\ VeilMailError.piiTypes e = Some (VArr [VStr "SSN"]).
Proof.
  destruct (parseApiError_unprocessable sample_Number_toString
              (Response.mk 422 "" [] "") (pii_body (VArr [VStr "SSN"])))
    as [e (He & _ & _ & Hlist)].
  - reflexivity.
  - exists "PII detected". vm_compute. reflexivity.
  - exists e. split; [exact He |].
    apply (Hlist [VStr "SSN"]); vm_compute; reflexivity.
Defined.

(** C5 as stated fails: 9007199254740993 is not a double, and the
    retryAfter field holds the double next to it. *)
Lemma RateLimitError_retryAfter_counterexample :
  decimal_integer "9007199254740993" = Some 9007199254740993
  /\ exists e,
       parseApiError sample_Number_toString
         (Response.mk 429 "" [("Retry-After", "9007199254740993")] "") VNull = Ok e
       /\ VeilMailError.retryAfter e = Some (Int 9007199254740992)
       /\ VeilMailError.retryAfter e <> Some (Int 9007199254740993).
Proof.
  split; [vm_compute; reflexivity |].
  eexists. split; [vm_compute; reflexivity |]. split; [reflexivity | discriminate].
Qed.

Lemma RateLimitError_retryAfter_witness :
  exists e,
    parseApiError sample_Number_toString
      (Response.mk 429 "Too Many Requests" [("Retry-After", "120")] "") VNull = Ok e
    /\ VeilMailError.retryAfter e = Some (Int 120).
Proof.
  destruct (RateLimitError_retryAfter sample_Number_toString
              (Response.mk 429 "Too Many Requests" [("Retry-After", "120")] "") VNull)
    as [e (He & _ & _ & Hretry & _)].
  - reflexivity.
  - exists "Too Many Requests". reflexivity.
  - exists e. split; [exact He |].
    apply (Hretry "120" 120); [reflexivity | reflexivity | vm_compute; discriminate].
Defined.

(** C6 as stated fails: a 403 with an empty status text and no message
    in the body yields an error whose message is empty. *)
Lemma error_messages_counterexample :
  exists e,
    parseApiError sample_Number_toString (Response.mk 403 "" [] "") VNull = Ok e
    /\ VeilMailError.message e = "".
Proof. eexists. split; [vm_compute; reflexivity | reflexivity]. Qed.

Lemma error_messages_witness :
  exists e,
    parseApiError sample_Number_toString (Response.mk 401 "Unauthorized" [] "") VNull
    = Ok e
    /\ ToString sample_Number_toString
         (api_message (Response.mk 401 "Unauthorized" [] "") VNull)
       = Some (VeilMailError.message e).
Proof.
  eexists. split; [reflexivity |].
  exact (proj2 (proj2 (error_messages sample_Number_toString))
           (Response.mk 401 "Unauthorized" [] "") VNull _ eq_refl).
Defined.

Lemma ValidationError_status_400_witness :
  exists e,
    parseApiError sample_Number_toString
      (Response.mk 422 "Unprocessable Entity" [] "") VNull = Ok e
    /\ VeilMailError.name e = "ValidationError"
    /\ VeilMailError.status e = Some 400.
Proof.
  eexists. split; [reflexivity |]. split; [reflexivity |].
  apply (ValidationError_status_400 sample_Number_toString
           (Response.mk 422 "Unprocessable Entity" [] "") VNull);
    reflexivity.
Defined.

Lemma constructor_checks_key_witness :
  (exists m,
     HttpClient_new (VeilMailConfig.mk (Some "abc123") None None)
     = Throw (ThrownError "Error" m))
  /\ (exists http,
        HttpClient_new (VeilMailConfig.mk (Some "veil_test_key") None None) = Ok http
        /\ HttpClient.baseUrl http = "https://api.veilmail.xyz").
Proof.
  split.
  - destruct (constructor_checks_key (VeilMailConfig.mk (Some "abc123") None None))
      as [m [Hm _]].
    exists m. exact Hm.
  - destruct (constructor_checks_key (VeilMailConfig.mk (Some "veil_test_key") None None))
      as [http [Hh _]].
    exists http. split; [exact Hh |].
    injection Hh as <-. reflexivity.
Defined.

(** C2 as stated fails on a body that is late: the head of the response
    arrives after 10 ms, within the timeout of 50 ms, and the body a
    minute later; the request resolves with that body and no timeout
    error is thrown. *)
Lemma request_timeout_counterexample :
  setTimeout_delay (HttpClient.timeout sample_client) = 50
  /\ 50 < 10 + 60000
  /\ request sample_Number_toString sample_URL_other
       (sample_network
          (Answers 10 (Response.mk 200 "OK" [("content-type", "text/csv")] "a,b")
             60000))
       (sample_JSON_parse VNull) sample_JSON_stringify
       sample_client "GET" "/v1/emails" RequestOptions.empty
     = Ok (VStr "a,b").
Proof. repeat split; vm_compute; reflexivity. Qed.

Lemma request_timeout_witness :
  request sample_Number_toString sample_URL_other
    (sample_network (Answers 200 (json_response 200) 0))
    (sample_JSON_parse VNull) sample_JSON_stringify
    sample_client "GET" "/v1/emails" RequestOptions.empty
  = Throw (ThrownSDK (VeilMailError.mk "TimeoutError" "Request timed out after 50ms"
                        (VStr "timeout") None VUndefined None None)).
Proof.
  destruct (request_timeout sample_Number_toString sample_URL_other
              (sample_network (Answers 200 (json_response 200) 0))
              (sample_JSON_parse VNull) sample_JSON_stringify
              sample_client "GET" "/v1/emails" RequestOptions.empty
              "https://proxy.example.com/v1/emails")
    as (_ & Helapsed & Htimeout & _).
  - vm_compute. reflexivity.
  - rewrite Htimeout; [vm_compute; reflexivity |].
    apply (Helapsed 50%Q 200); [reflexivity | discriminate | reflexivity].
Defined.

Lemma request_success_body_witness :
  request sample_Number_toString sample_URL_other
    (sample_network (Answers 0 (json_response 204) 0))
    failing_JSON_parse sample_JSON_stringify
    sample_client "DELETE" "/v1/emails/email_1" RequestOptions.empty
  = Ok VUndefined
  /\ request sample_Number_toString sample_URL_other
       (sample_network
          (Answers 0 (Response.mk 200 "OK" [("Content-Type", "text/csv")] "a,b") 0))
       (sample_JSON_parse VNull) sample_JSON_stringify
       sample_client "GET" "/v1/emails" RequestOptions.empty
     = Ok (VStr "a,b").
Proof.
  split.
  - apply (request_success_body sample_Number_toString sample_URL_other
             (sample_network (Answers 0 (json_response 204) 0))
             failing_JSON_parse sample_JSON_stringify
             sample_client "DELETE" "/v1/emails/email_1" RequestOptions.empty
             "https://proxy.example.com/v1/emails/email_1" (json_response 204));
      [vm_compute; reflexivity | reflexivity | reflexivity].
  - apply (request_success_body sample_Number_toString sample_URL_other
             (sample_network
          (Answers 0 (Response.mk 200 "OK" [("Content-Type", "text/csv")] "a,b") 0))
             (sample_JSON_parse VNull) sample_JSON_stringify
             sample_client "GET" "/v1/emails" RequestOptions.empty
             "https://proxy.example.com/v1/emails"
             (Response.mk 200 "OK" [("Content-Type", "text/csv")] "a,b"));
      [vm_compute; reflexivity | reflexivity | discriminate
      | reflexivity | vm_compute; reflexivity].
Defined.



Lemma Templates_create_get_roundtrip_witness :
  exists template,
    Templates_create sample_Number_toString sample_URL_other
      (sample_network (Answers 0 (json_response 200) 0))
      (sample_JSON_parse (VObj {[ "data" := VObj (create_body sample_params) ]}))
      sample_JSON_stringify sample_client sample_params
    = Ok (VObj template)
    /\ Templates_get sample_Number_toString sample_URL_other
         (sample_network (Answers 0 (json_response 200) 0))
         (sample_JSON_parse (VObj {[ "data" := VObj (create_body sample_params) ]}))
         sample_JSON_stringify sample_client "template_1"
       = Ok (VObj template)
    /\ template !! "variables" = Some (VArr [VObj {[ "name" := VStr "firstName" ]}]).
Proof.
  destruct (Templates_create_get_roundtrip sample_Number_toString sample_URL_other
              (sample_network (Answers 0 (json_response 200) 0))
              (sample_JSON_parse (VObj {[ "data" := VObj (create_body sample_params) ]}))
              sample_JSON_stringify sample_client sample_params "template_1"
              (create_body sample_params)
              "https://proxy.example.com/v1/templates"
              "https://proxy.example.com/v1/templates/template_1"
              (json_response 200) (json_response 200))
    as (Hcreate & Hget & Hvars & _).
  - vm_compute. reflexivity.
  - reflexivity.
  - vm_compute. reflexivity.
  - reflexivity.
  - repeat split; try discriminate; vm_compute; reflexivity.
  - repeat split; try discriminate; vm_compute; reflexivity.
  - reflexivity.
  - eexists. split; [exact Hcreate |]. split; [exact Hget |].
    apply (Hvars [VObj {[ "name" := VStr "firstName" ]}]). vm_compute. reflexivity.
Defined.

(** ** Further examples *)

Example missing_key_is_rejected :
  VeilMail_new (inr (VeilMailConfig.mk None (Some "https://proxy.example.com") None))
  = Throw (ThrownError "Error" "API key is required").
Proof. reflexivity. Qed.

Example trailing_slash_is_dropped :
  HttpClient_new (VeilMailConfig.mk (Some "veil_live_key")
                    (Some "https://proxy.example.com/api/") None)
  = Ok (HttpClient.mk "veil_live_key" "https://proxy.example.com/api" (Int 30000)).
Proof. reflexivity. Qed.

Example parseInt_reads_a_prefix : parseInt "  -12px" = Int (-12).
Proof. vm_compute. reflexivity. Qed.

Example parseInt_of_a_date : parseInt "Wed, 21 Oct 2015 07:28:00 GMT" = NaN.
Proof. vm_compute. reflexivity. Qed.

Example server_error_keeps_its_status :
  parseApiError sample_Number_toString (Response.mk 503 "Service Unavailable" [] "")
    (VStr "<html>down</html>")
  = Ok (VeilMailError.mk "ServerError" "Service Unavailable" (VStr "server_error")
          (Some 503) VUndefined None None).
Proof. vm_compute. reflexivity. Qed.

Example network_failure_is_translated :
  request sample_Number_toString sample_URL_other
    (sample_network (Rejects 0 (ThrownError "TypeError" "fetch failed")))
    (sample_JSON_parse VNull) sample_JSON_stringify
    sample_client "GET" "/v1/emails" RequestOptions.empty
  = Throw (ThrownSDK (VeilMailError.mk "NetworkError" "Network error: fetch failed"
                        (VStr "network_error") None VUndefined None None)).
Proof. vm_compute. reflexivity. Qed.

Example query_values_are_percent_encoded :
  request_url sample_Number_toString sample_URL_other sample_client "/v1/emails"
    (Some [("tag", QString "a&b=c d/#")])
  = Some "https://proxy.example.com/v1/emails?tag=a%26b%3Dc+d%2F%23".
Proof. vm_compute. reflexivity. Qed.

Example dot_segments_are_resolved :
  remove_dot_segments "/v1/templates/./a/../b" = "/v1/templates/b".
Proof. vm_compute. reflexivity. Qed.

Example timer_of_a_short_timeout :
  setTimeout_delay (Int 0) = 1 /\ setTimeout_delay (Int 30000) = 30000.
Proof. split; vm_compute; reflexivity. Qed.

Example mapTemplate_twice_resets_variables :
  mapTemplate (VObj {[ "variables" := VArr [VStr "kept"] ]})
  = Ok (VObj {[ "variables" := VArr [] ]}).
Proof. vm_compute. reflexivity. Qed.

(** ** The further properties at sample inputs *)

Lemma parseApiError_keeps_status_witness :
  exists e,
    parseApiError sample_Number_toString
      (Response.mk 503 "Service Unavailable" [] "") VNull = Ok e
    /\ VeilMailError.status e = Some 503.
Proof.
  eexists. split; [reflexivity |].
  apply (parseApiError_keeps_status sample_Number_toString
           (Response.mk 503 "Service Unavailable" [] "") VNull);
    [reflexivity | vm_compute; discriminate].
Defined.

Lemma parseApiError_fixed_code_witness :
  exists e,
    parseApiError sample_Number_toString (Response.mk 401 "Unauthorized" [] "")
      revoked_body = Ok e
    /\ VeilMailError.message e = "Key revoked"
    /\ VeilMailError.code e = VStr "authentication_error"
    /\ VeilMailError.details e = VUndefined.
Proof.
  eexists. split; [vm_compute; reflexivity |]. split; [reflexivity |].
  destruct (parseApiError_fixed_code sample_Number_toString
              (Response.mk 401 "Unauthorized" [] "") revoked_body _ eq_refl)
    as (Hcode & Hdetails & _).
  - left. simpl. auto.
  - split; [exact Hcode | exact Hdetails].
Defined.

Lemma RateLimitError_details_witness :
  exists e,
    parseApiError sample_Number_toString
      (Response.mk 429 "Too Many Requests"
         [("Retry-After", "Wed, 21 Oct 2015 07:28:00 GMT")] "") VNull = Ok e
    /\ VeilMailError.retryAfter e = Some NaN
    /\ VeilMailError.details e = VUndefined.
Proof.
  eexists. split; [vm_compute; reflexivity |].
  refine (proj1 (proj2 (RateLimitError_details sample_Number_toString
                          (Response.mk 429 "Too Many Requests"
                             [("Retry-After", "Wed, 21 Oct 2015 07:28:00 GMT")] "")
                          VNull _ eq_refl eq_refl))
            "W"%char "ed, 21 Oct 2015 07:28:00 GMT" _ _ _ _ _);
    try (vm_compute; reflexivity); discriminate.
Defined.

Lemma request_rejects_failure_witness :
  exists t,
    request sample_Number_toString sample_URL_other
      (sample_network (Answers 0 (Response.mk 401 "Unauthorized" [] "") 0))
      (sample_JSON_parse VNull) sample_JSON_stringify
      sample_client "GET" "/v1/emails" RequestOptions.empty
    = Throw t.
Proof.
  apply (request_rejects_failure sample_Number_toString sample_URL_other
           (sample_network (Answers 0 (Response.mk 401 "Unauthorized" [] "") 0))
           (sample_JSON_parse VNull) sample_JSON_stringify
           sample_client "GET" "/v1/emails" RequestOptions.empty
           "https://proxy.example.com/v1/emails"
           (Response.mk 401 "Unauthorized" [] ""));
    [vm_compute; reflexivity | reflexivity | reflexivity].
Defined.

Lemma request_text_error_witness :
  request sample_Number_toString sample_URL_other
    (sample_network (Answers 0 (Response.mk 409 "Conflict"
                                [("content-type", "text/html")] "<p>conflict</p>") 0))
    (sample_JSON_parse VNull) sample_JSON_stringify
    sample_client "POST" "/v1/emails" RequestOptions.empty
  = Throw (ThrownSDK (VeilMailError.mk "VeilMailError" "Conflict"
                        (VStr "unknown_error") (Some 409) VUndefined None None)).
Proof.
  destruct (request_text_error sample_Number_toString sample_URL_other
              (sample_network (Answers 0 (Response.mk 409 "Conflict"
                                          [("content-type", "text/html")]
                                          "<p>conflict</p>") 0))
              (sample_JSON_parse VNull) sample_JSON_stringify
              sample_client "POST" "/v1/emails" RequestOptions.empty
              "https://proxy.example.com/v1/emails"
              (Response.mk 409 "Conflict" [("content-type", "text/html")]
                 "<p>conflict</p>"))
    as (e & He & _ & Hother).
  - vm_compute. reflexivity.
  - reflexivity.
  - reflexivity.
  - vm_compute. reflexivity.
  - rewrite He, Hother; [reflexivity | reflexivity |].
    simpl. intuition discriminate.
Defined.

Lemma request_network_error_witness :
  request sample_Number_toString sample_URL_other
    (sample_network (Rejects 0 (ThrownError "TypeError" "fetch failed")))
    (sample_JSON_parse VNull) sample_JSON_stringify
    sample_client "GET" "/v1/emails" RequestOptions.empty
  = Throw (ThrownSDK (VeilMailError.mk "NetworkError" "Network error: fetch failed"
                        (VStr "network_error") None VUndefined None None)).
Proof.
  rewrite (request_network_error sample_Number_toString sample_URL_other
             (sample_network (Rejects 0 (ThrownError "TypeError" "fetch failed")))
             (sample_JSON_parse VNull) sample_JSON_stringify
             sample_client "GET" "/v1/emails" RequestOptions.empty
             "https://proxy.example.com/v1/emails" "fetch failed");
    [reflexivity | vm_compute; reflexivity | reflexivity].
Defined.

Lemma request_rethrows_witness :
  request sample_Number_toString sample_URL_other
    (sample_network (Rejects 0 (ThrownError "SecurityError" "blocked")))
    (sample_JSON_parse VNull) sample_JSON_stringify
    sample_client "GET" "/v1/emails" RequestOptions.empty
  = Throw (ThrownError "SecurityError" "blocked").
Proof.
  apply (request_rethrows sample_Number_toString sample_URL_other
           (sample_network (Rejects 0 (ThrownError "SecurityError" "blocked")))
           (sample_JSON_parse VNull) sample_JSON_stringify
           sample_client "GET" "/v1/emails" RequestOptions.empty
           "https://proxy.example.com/v1/emails");
    [vm_compute; reflexivity | reflexivity | simpl; split; discriminate].
Defined.

Lemma request_malformed_json_witness :
  request sample_Number_toString sample_URL_other
    (sample_network (Answers 0 (json_response 500) 0))
    failing_JSON_parse sample_JSON_stringify
    sample_client "GET" "/v1/emails" RequestOptions.empty
  = Throw (ThrownError "SyntaxError" "Unexpected end of JSON input").
Proof.
  apply (request_malformed_json sample_Number_toString sample_URL_other
           (sample_network (Answers 0 (json_response 500) 0))
           failing_JSON_parse sample_JSON_stringify
           sample_client "GET" "/v1/emails" RequestOptions.empty
           "https://proxy.example.com/v1/emails" (json_response 500));
    [vm_compute; reflexivity | reflexivity | discriminate
    | vm_compute; reflexivity | reflexivity].
Defined.

Lemma request_json_body_witness :
  request sample_Number_toString sample_URL_other
    (sample_network (Answers 0 (json_response 200) 0))
    (sample_JSON_parse VNull) sample_JSON_stringify
    sample_client "GET" "/v1/emails" RequestOptions.empty
  = Ok VNull.
Proof.
  apply (request_json_body sample_Number_toString sample_URL_other
           (sample_network (Answers 0 (json_response 200) 0))
           (sample_JSON_parse VNull) sample_JSON_stringify
           sample_client "GET" "/v1/emails" RequestOptions.empty
           "https://proxy.example.com/v1/emails" (json_response 200));
    [vm_compute; reflexivity | reflexivity | discriminate | reflexivity
    | vm_compute; reflexivity | reflexivity].
Defined.

Lemma falsy_body_is_not_sent_witness :
  HttpClient_post sample_Number_toString sample_URL_other
    (sample_network (Answers 0 (json_response 200) 0))
    (sample_JSON_parse VNull) sample_JSON_stringify
    sample_client "/v1/emails" (VNum (Int 0))
  = HttpClient_post sample_Number_toString sample_URL_other
      (sample_network (Answers 0 (json_response 200) 0))
      (sample_JSON_parse VNull) sample_JSON_stringify
      sample_client "/v1/emails" VUndefined.
Proof.
  apply (falsy_body_is_not_sent sample_Number_toString sample_URL_other
           (sample_network (Answers 0 (json_response 200) 0))
           (sample_JSON_parse VNull) sample_JSON_stringify
           sample_client "POST" "/v1/emails" (VNum (Int 0)) None ∅).
  reflexivity.
Defined.

Lemma HttpClient_new_normalises_witness :
  HttpClient_new (VeilMailConfig.mk (Some "veil_live_key")
                    (Some "https://proxy.example.com//") (Some (Int 0)))
  = Ok (HttpClient.mk "veil_live_key" "https://proxy.example.com/" (Int 0)).
Proof.
  exact (proj1 (HttpClient_new_normalises "veil_live_key" (Some (Int 0)) eq_refl)
           "https://proxy.example.com/").
Defined.

Lemma invalid_base_url_fails_at_request_witness :
  exists client,
    HttpClient_new (VeilMailConfig.mk (Some "veil_test_key") (Some "not a url") None)
    = Ok client
    /\ request sample_Number_toString sample_URL_other
         (sample_network (Answers 0 (json_response 200) 0))
         (sample_JSON_parse VNull) sample_JSON_stringify
         client "GET" "/v1/emails" RequestOptions.empty
       = Throw (ThrownError "TypeError" "Invalid URL").
Proof.
  destruct (invalid_base_url_fails_at_request sample_Number_toString sample_URL_other
              (sample_network (Answers 0 (json_response 200) 0))
              (sample_JSON_parse VNull) sample_JSON_stringify
              "veil_test_key" "not a url" None eq_refl)
    as (client & Hnew & _ & Hrequest).
  exists client. split; [exact Hnew |].
  apply Hrequest. vm_compute. reflexivity.
Defined.


Lemma Emails_list_url_witness :
  request_url sample_Number_toString sample_URL_other sample_client "/v1/emails"
    (Some (Emails_list_query (Some sample_filters)))
  = Some "https://proxy.example.com/v1/emails?limit=20&status=delivered".
Proof.
  pose proof (Emails_list_url sample_Number_toString sample_URL_other
                (sample_network Pending) (sample_JSON_parse VNull) sample_JSON_stringify
                sample_client "https://proxy.example.com" (Some sample_filters))
    as Hlist.
  cbv zeta in Hlist. destruct Hlist as [Hurl _]; [vm_compute; reflexivity |].
  rewrite Hurl. vm_compute. reflexivity.
Defined.

Lemma resource_calls_witness :
  Emails_get sample_Number_toString sample_URL_other
    (sample_network (Answers 0 (json_response 200) 0))
    (sample_JSON_parse (VObj {[ "id" := VStr "email_1" ]})) sample_JSON_stringify
    sample_client "email_1"
  = Ok (VObj {[ "id" := VStr "email_1" ]}).
Proof.
  apply (resource_calls sample_Number_toString sample_URL_other
           (sample_network (Answers 0 (json_response 200) 0))
           (sample_JSON_parse (VObj {[ "id" := VStr "email_1" ]})) sample_JSON_stringify
           sample_client "https://proxy.example.com" "email_1" (json_response 200)).
  - vm_compute. reflexivity.
  - vm_compute. reflexivity.
  - repeat split; try discriminate; vm_compute; reflexivity.
  - reflexivity.
Defined.

Lemma Emails_get_missing_witness :
  Emails_get sample_Number_toString sample_URL_other
    (sample_network (Answers 0 (Response.mk 404 "Not Found" [] "no such email") 0))
    (sample_JSON_parse VNull) sample_JSON_stringify
    sample_client "email_1"
  = Throw (ThrownSDK (VeilMailError.mk "NotFoundError" "Resource not found"
                        (VStr "not_found") (Some 404) VUndefined None None)).
Proof.
  apply (Emails_get_missing sample_Number_toString sample_URL_other
           (sample_network (Answers 0 (Response.mk 404 "Not Found" [] "no such email") 0))
           (sample_JSON_parse VNull) sample_JSON_stringify
           sample_client "https://proxy.example.com" "email_1"
           (Response.mk 404 "Not Found" [] "no such email"));
    [vm_compute; reflexivity | vm_compute; reflexivity | reflexivity | reflexivity |].
  left. reflexivity.
Defined.

Lemma read_body_json_content_type_witness :
  read_body (sample_JSON_parse VNull)
    (Response.mk 200 "OK" [("Content-Type", "application/json; charset=utf-8")] "null")
  = Ok VNull.
Proof.
  apply (read_body_json_content_type (sample_JSON_parse VNull)
           (Response.mk 200 "OK"
              [("Content-Type", "application/json; charset=utf-8")] "null")
           "" "; charset=utf-8").
  vm_compute. reflexivity.
Defined.

Lemma Templates_delete_result_witness :
  Templates_delete sample_Number_toString sample_URL_other
    (sample_network (Answers 0 (Response.mk 200 "OK" [] "deleted") 0))
    (sample_JSON_parse VNull) sample_JSON_stringify
    sample_client "template_1"
  = Ok VUndefined
  /\ Templates_delete sample_Number_toString sample_URL_other
       (sample_network (Answers 0 (json_response 200) 0))
       failing_JSON_parse sample_JSON_stringify
       sample_client "template_1"
     = Throw (ThrownError "SyntaxError" "Unexpected end of JSON input").
Proof.
  split.
  - rewrite (Templates_delete_result sample_Number_toString sample_URL_other
               (sample_network (Answers 0 (Response.mk 200 "OK" [] "deleted") 0))
               (sample_JSON_parse VNull) sample_JSON_stringify
               sample_client "template_1"
               "https://proxy.example.com/v1/templates/template_1"
               (Response.mk 200 "OK" [] "deleted"));
      [reflexivity | vm_compute; reflexivity | reflexivity | reflexivity].
  - rewrite (Templates_delete_result sample_Number_toString sample_URL_other
               (sample_network (Answers 0 (json_response 200) 0))
               failing_JSON_parse sample_JSON_stringify
               sample_client "template_1"
               "https://proxy.example.com/v1/templates/template_1"
               (json_response 200));
      [reflexivity | vm_compute; reflexivity | reflexivity | reflexivity].
Defined.

Lemma Templates_update_result_witness :
  Templates_update sample_Number_toString sample_URL_other
    (sample_network (Answers 0 (json_response 200) 0))
    (sample_JSON_parse (VObj {[ "data" := VObj stored_template ]}))
    sample_JSON_stringify sample_client "template_1" sample_update
  = Ok (VObj {[ "id" := VStr "template_1"; "subject" := VStr "Hello again";
                "variables" := VArr [] ]}).
Proof.
  destruct (Templates_update_result sample_Number_toString sample_URL_other
              (sample_network (Answers 0 (json_response 200) 0))
              (sample_JSON_parse (VObj {[ "data" := VObj stored_template ]}))
              sample_JSON_stringify sample_client "template_1" sample_update
              "https://proxy.example.com/v1/templates/template_1"
              (json_response 200))
    as [Hdata _].
  - vm_compute. reflexivity.
  - reflexivity.
  - reflexivity.
  - rewrite (Hdata (VObj {[ "data" := VObj stored_template ]}) stored_template).
    + vm_compute. reflexivity.
    + repeat split; try discriminate; vm_compute; reflexivity.
    + vm_compute. reflexivity.
Defined.
